(** * Soltar worker: identity and tenant-metadata core

    A shallow embedding of [cmd/worker/main.go]: the OTP generator, the
    key-value storage, the OTP issue/verify handlers, the client registry,
    the session tokens and the infrastructure manifest handlers, followed by
    the properties of the specification that concern them. *)

From Stdlib Require Import ZArith String Ascii List Lia.
From Stdlib.Strings Require Import Byte.
From stdpp Require Import gmap strings.

Local Open Scope Z_scope.

(** ** fmt.Sprintf("%06d", n) for a non-negative n *)

Module Fmt.

(** [byte('0' + d)] *)
Definition digitChar (d : Z) : ascii := ascii_of_N (48 + Z.to_N d).

(** The digit loop of fmt's integer formatter:
    [for u >= 10 { next := u / 10; buf[i] = '0' + u - next*10; u = next }]
    followed by the last digit.  A 64-bit value has at most 20 digits, which
    bounds the loop. *)
Fixpoint fmtDigits (fuel : nat) (u : Z) (buf : string) : string :=
  match fuel with
  | O => buf
  | S fuel' =>
      if 10 <=? u
      then fmtDigits fuel' (u / 10) (String (digitChar (u - (u / 10) * 10)) buf)
      else String (digitChar u) buf
  end.

(** [for prec > len(buf)-i { buf[i] = '0' }]: left padding with zeros. *)
Fixpoint zeroPad (n : nat) (s : string) : string :=
  match n with
  | O => s
  | S n' => String "0"%char (zeroPad n' s)
  end.

Definition sprintf_06d (u : Z) : string :=
  let ds := fmtDigits 20 u EmptyString in
  zeroPad (6 - String.length ds) ds.

End Fmt.

(** ** generateOTP *)

Definition byteVal (b : byte) : Z := Z.of_N (Byte.to_N b).

(** [int(bytes[0])<<16 | int(bytes[1])<<8 | int(bytes[2])] *)
Definition otpValue (b0 b1 b2 : byte) : Z :=
  Z.lor (Z.lor (Z.shiftl (byteVal b0) 16) (Z.shiftl (byteVal b1) 8)) (byteVal b2).

(** [generateOTP] as a function of the three bytes [rand.Read] delivers:
    [fmt.Sprintf("%06d", v)[:6]]. *)
Definition otpOfValue (v : Z) : string :=
  substring 0 6 (Fmt.sprintf_06d v).

Definition generateOTP_from (b0 b1 b2 : byte) : string :=
  otpOfValue (otpValue b0 b1 b2).

(** Reference rendering of a number below 10^6 as six decimal digits. *)
Definition code6 (n : Z) : string :=
  String (Fmt.digitChar (n / 100000 mod 10))
 (String (Fmt.digitChar (n / 10000 mod 10))
 (String (Fmt.digitChar (n / 1000 mod 10))
 (String (Fmt.digitChar (n / 100 mod 10))
 (String (Fmt.digitChar (n / 10 mod 10))
 (String (Fmt.digitChar (n mod 10)) EmptyString))))).

(** The number whose six digits the generator returns for the 24-bit value
    [v]: the leading six digits of [v]'s decimal form. *)
Definition otpNumber (v : Z) : Z :=
  if v <? 1000000 then v
  else if v <? 10000000 then v / 10
  else v / 100.

Definition isDigit (c : ascii) : Prop :=
  (48 <= N_of_ascii c <= 57)%N.

Fixpoint allDigits (s : string) : Prop :=
  match s with
  | EmptyString => True
  | String c s' => isDigit c /\ allDigits s'
  end.

(** The claim of uniformity: every six-digit code has the same number [k] of
    preimages among the byte triples. *)
Definition uniformCodes : Prop :=
  exists k : nat, forall c : Z, 0 <= c < 1000000 ->
    exists l : list (byte * byte * byte),
      List.NoDup l /\ List.length l = k /\
      forall t, List.In t l <->
        generateOTP_from (fst (fst t)) (snd (fst t)) (snd t) = code6 c.

(** ** Time

    A [time.Time] is modelled by its wall-clock instant in nanoseconds since
    the Unix epoch; durations are nanosecond counts, as in package [time]. *)

Definition Time := Z.

Definition Second : Z := 1000000000.
Definition Minute : Z := 60 * Second.
Definition Hour : Z := 60 * Minute.

(** [t.Unix()] *)
Definition Unix (t : Time) : Z := t / Second.

(** [t.Add(d)] *)
Definition Add (t : Time) (d : Z) : Time := t + d.

(** [t.Truncate(time.Second)] *)
Definition TruncateSecond (t : Time) : Time := t - t mod Second.

(** The zero [time.Time], January 1 of year 1. *)
Definition zeroTime : Time := -62135596800 * Second.

(** ** Data model (the structs of main.go)

    A [[]string] is a [list string]; a nil slice and an empty one are not
    told apart. *)

Record Environment := mkEnvironment {
  env_ID : string;
  env_ClientID : string;
  env_VPNServer : string;
  env_VPNPort : Z;
  env_Created : Time;
  env_Status : string;
  env_Region : string;
  env_Instances : list string;
  env_Databases : list string;
  env_Storage : list string
}.

Record Infrastructure := mkInfrastructure {
  inf_VPNInstances : list string;
  inf_LoadBalancers : list string;
  inf_Databases : list string;
  inf_Storage : list string;
  inf_Created : Time;
  inf_LastUpdated : Time
}.

Record ClientData := mkClientData {
  cd_ID : string;
  cd_Email : string;
  cd_Created : Time;
  cd_LastSeen : Time;
  cd_Environment : Environment;
  cd_Infrastructure : Infrastructure
}.

(** The map written by handleRegister:
    [{"otp": otp, "expires": ..., "attempts": 0}]. *)
Record OTPData := mkOTPData {
  otp_code : string;
  otp_expires : Z;
  otp_attempts : Z
}.

Record OTPRequest := mkOTPRequest { req_Email : string }.

Record OTPVerify := mkOTPVerify { ver_Email : string; ver_OTP : string }.

Definition zeroEnvironment : Environment :=
  mkEnvironment "" "" "" 0 zeroTime "" "" [] [] [].

Definition zeroInfrastructure : Infrastructure :=
  mkInfrastructure [] [] [] [] zeroTime zeroTime.

Definition zeroClientData : ClientData :=
  mkClientData "" "" zeroTime zeroTime zeroEnvironment zeroInfrastructure.

(** [clientData.Infrastructure = infrastructure] *)
Definition setInfrastructure (c : ClientData) (i : Infrastructure) : ClientData :=
  mkClientData (cd_ID c) (cd_Email c) (cd_Created c) (cd_LastSeen c)
               (cd_Environment c) i.

(** [clientData.Infrastructure.LastUpdated = t] *)
Definition setLastUpdated (i : Infrastructure) (t : Time) : Infrastructure :=
  mkInfrastructure (inf_VPNInstances i) (inf_LoadBalancers i) (inf_Databases i)
                   (inf_Storage i) (inf_Created i) t.

(** [clientData.LastSeen = t] *)
Definition setLastSeen (c : ClientData) (t : Time) : ClientData :=
  mkClientData (cd_ID c) (cd_Email c) (cd_Created c) t
               (cd_Environment c) (cd_Infrastructure c).

(** ** Stored documents

    The store holds [[]byte] values that the service produces with
    [json.Marshal].  A stored value is modelled by the document it encodes:
    one of the three shapes the service writes, or bytes that are not JSON.
    [json.Marshal] is the constructor, [json.Unmarshal] the decoders below. *)

Inductive Doc :=
| DocOTP (o : OTPData)
| DocClient (c : ClientData)
| DocEnv (e : Environment)
| DocRaw (bytes : string).

(** [json.Unmarshal(clientBytes, &client)] into a zero [ClientData], the
    error ignored as in the source: unknown keys are skipped, so an
    environment document only fills ["id"] and ["created"], an OTP document
    fills nothing, and bytes that do not parse leave the zero value. *)
Definition decodeClient (d : Doc) : ClientData :=
  match d with
  | DocClient c => c
  | DocEnv e =>
      mkClientData (env_ID e) "" (env_Created e) zeroTime
                   zeroEnvironment zeroInfrastructure
  | DocOTP _ => zeroClientData
  | DocRaw _ => zeroClientData
  end.

(** ** Storage: the InMemoryStorage implementation *)

Definition Get (key : string) (data : gmap string Doc) : option Doc :=
  data !! key.

Definition Put (key : string) (value : Doc) (data : gmap string Doc)
  : gmap string Doc :=
  <[key := value]> data.

Definition Delete (key : string) (data : gmap string Doc) : gmap string Doc :=
  delete key data.

(** Persisted key layout. *)
Definition otpKey (email : string) : string := ("otp:" +:+ email)%string.
Definition clientKey (email : string) : string := ("client:" +:+ email)%string.
Definition idKey (clientID : string) : string :=
  ("client_id:" +:+ clientID)%string.
Definition envKey (environmentID : string) : string :=
  ("environment:" +:+ environmentID)%string.

(** ** The process and its environment

    [storage] is the global store.  The clock, [uuid.New], [crypto/rand] and
    the process environment are the outside world: the n-th reading of each
    is given by a function, with a counter of the readings taken so far. *)

Record World := mkWorld {
  storage : gmap string Doc;
  clock : nat -> Time;
  ticks : nat;
  uuidSource : nat -> string;
  uuidsDrawn : nat;
  randSource : nat -> byte;
  randDrawn : nat;
  environ : string -> string
}.

Definition withStorage (s : gmap string Doc) (w : World) : World :=
  mkWorld s (clock w) (ticks w) (uuidSource w) (uuidsDrawn w)
          (randSource w) (randDrawn w) (environ w).

(** A computation of the service: it reads and updates the world. *)
Definition M (A : Type) : Type := World -> A * World.

Definition ret {A : Type} (a : A) : M A := fun w => (a, w).

Definition bind {A B : Type} (m : M A) (k : A -> M B) : M B :=
  fun w => let (a, w') := m w in k a w'.

Notation "x <- m ;; k" := (bind m (fun x => k))
  (at level 100, m at level 99, k at level 100).
Notation "m ;;; k" := (bind m (fun _ => k))
  (at level 100, k at level 100).

(** [time.Now()] *)
Definition timeNow : M Time := fun w =>
  (clock w (ticks w),
   mkWorld (storage w) (clock w) (S (ticks w)) (uuidSource w) (uuidsDrawn w)
           (randSource w) (randDrawn w) (environ w)).

(** [uuid.New().String()] *)
Definition uuidNew : M string := fun w =>
  (uuidSource w (uuidsDrawn w),
   mkWorld (storage w) (clock w) (ticks w) (uuidSource w) (S (uuidsDrawn w))
           (randSource w) (randDrawn w) (environ w)).

(** [rand.Read(bytes)] for one byte *)
Definition randByte : M byte := fun w =>
  (randSource w (randDrawn w),
   mkWorld (storage w) (clock w) (ticks w) (uuidSource w) (uuidsDrawn w)
           (randSource w) (S (randDrawn w)) (environ w)).

Definition getEnv (key defaultValue : string) : M string := fun w =>
  (if String.eqb (environ w key) "" then defaultValue else environ w key, w).

Definition storageGet (key : string) : M (option Doc) := fun w =>
  (Get key (storage w), w).

Definition storagePut (key : string) (value : Doc) : M unit := fun w =>
  (tt, withStorage (Put key value (storage w)) w).

Definition storageDelete (key : string) : M unit := fun w =>
  (tt, withStorage (Delete key (storage w)) w).

(** [secret = []byte(getEnv("JWT_SECRET", ...))], fixed at start-up. *)
Definition secret : M string :=
  getEnv "JWT_SECRET" "your-secret-key-change-in-production".

Definition generateOTP : M string :=
  b0 <- randByte ;; b1 <- randByte ;; b2 <- randByte ;;
  ret (generateOTP_from b0 b1 b2).

(** ** Session tokens (github.com/golang-jwt/jwt/v5, as main.go uses it)

    A token string is either well formed, three segments that decode to a
    header with its [alg], the registered claims and a signature, or
    malformed.  The base64 and JSON wire encoding is not modelled. *)

Record RegisteredClaims := mkClaims {
  Subject : string;
  IssuedAt : option Time;
  ExpiresAt : option Time;
  NotBefore : option Time
}.

Inductive TokenString :=
| Malformed (raw : string)
| Compact (alg : string) (claims : RegisteredClaims) (signature : string).

(** [jwt.NewNumericDate(t)]: the library keeps whole seconds
    ([TimePrecision = time.Second]). *)
Definition NewNumericDate (t : Time) : option Time := Some (TruncateSecond t).

(** The HMAC family, the only signing methods that accept a [[]byte] key. *)
Definition isHMACMethod (alg : string) : bool :=
  String.eqb alg "HS256" || String.eqb alg "HS384" || String.eqb alg "HS512".

(** The default claims validator of jwt/v5 at time [now]: [exp], when
    present, must satisfy [now.Before(exp)]; [nbf], when present, must not be
    after [now]; [iat] is not checked unless asked for. *)
Definition validateClaims (now : Time) (c : RegisteredClaims) : bool :=
  match ExpiresAt c with
  | Some exp => now <? exp
  | None => true
  end &&
  match NotBefore c with
  | Some nbf => negb (now <? nbf)
  | None => true
  end.

(** ** HTTP requests and responses *)

Record AuthResponse := mkAuthResponse {
  ar_ClientID : string;
  ar_Token : TokenString;
  ar_Environment : Environment
}.

Record VPNConfig := mkVPNConfig {
  cfg_Server : string;
  cfg_Port : Z;
  cfg_Token : TokenString;
  cfg_EnvironmentID : string
}.

(** The response bodies the handlers write. *)
Inductive Body :=
| ErrorText (msg : string)
| MessageBody (message : string)
| AuthBody (r : AuthResponse)
| ConnectedBody (client_id : string) (environment : Environment)
| ConfigBody (config : VPNConfig)
| InfraUpdatedBody (message : string) (client_id : string)
| InfraBody (client_id : string) (infrastructure : Infrastructure)
            (environment : Environment).

Record Response := mkResponse { status : Z; body : Body }.

Definition StatusOK : Z := 200.
Definition StatusBadRequest : Z := 400.
Definition StatusUnauthorized : Z := 401.
Definition StatusNotFound : Z := 404.

(** [http.Error(w, msg, code)] *)
Definition httpError (msg : string) (code : Z) : Response :=
  mkResponse code (ErrorText msg).

(** The return points of handleVerify, in source order. *)
Inductive VerifyResult :=
| VerifyBadRequest
| VerifyNotFound
| VerifyUnreadable
| VerifyMismatch
| VerifyExpired
| VerifyOK (r : AuthResponse).

(** What each return point writes to the client. *)
Definition verifyResponse (r : VerifyResult) : Response :=
  match r with
  | VerifyBadRequest => httpError "Invalid request" StatusBadRequest
  | VerifyNotFound => httpError "Invalid OTP" StatusBadRequest
  | VerifyUnreadable => httpError "Invalid OTP" StatusBadRequest
  | VerifyMismatch => httpError "Invalid OTP" StatusBadRequest
  | VerifyExpired => httpError "OTP expired" StatusBadRequest
  | VerifyOK r => mkResponse StatusOK (AuthBody r)
  end.

(** An authenticated request.  [Authorization] is [None] for an empty
    header; otherwise it holds the token string left by
    [strings.TrimPrefix(authHeader, "Bearer ")]. *)
Record AuthRequest (B : Type) := mkAuthRequest {
  Authorization : option TokenString;
  requestBody : option B
}.
Arguments mkAuthRequest {B} _ _.
Arguments Authorization {B} _.
Arguments requestBody {B} _.

Section Service.

(** HMAC with the hash of method [alg], over the signing input, here the
    decoded header and claims. *)
Variable hmacSign : string -> string -> string * RegisteredClaims -> string.

(** [token.SignedString(secret)] for [jwt.NewWithClaims(SigningMethodHS256, claims)] *)
Definition SignedString (key : string) (c : RegisteredClaims) : TokenString :=
  Compact "HS256" c (hmacSign "HS256" key ("HS256"%string, c)).

(** [jwt.ParseWithClaims(tokenString, &RegisteredClaims{}, keyFunc)]:
    the claims of a token that is well formed, carries a signature valid
    under [key] for its own HMAC method, and passes the claims validator;
    [None] stands for an error or [!token.Valid]. *)
Definition ParseWithClaims (t : TokenString) (key : string)
  : M (option RegisteredClaims) :=
  match t with
  | Malformed _ => ret None
  | Compact alg c sig =>
      if isHMACMethod alg && String.eqb sig (hmacSign alg key (alg, c))
      then now <- timeNow ;;
           ret (if validateClaims now c then Some c else None)
      else ret None
  end.

Definition generateToken (clientID : string) : M TokenString :=
  t1 <- timeNow ;;
  t2 <- timeNow ;;
  key <- secret ;;
  ret (SignedString key
         (mkClaims clientID (NewNumericDate t1)
                   (NewNumericDate (Add t2 (24 * Hour))) None)).

(** [validateToken]: [Some subject], or [None] for the error return. *)
Definition validateToken (tokenString : TokenString) : M (option string) :=
  key <- secret ;;
  r <- ParseWithClaims tokenString key ;;
  match r with
  | None => ret None
  | Some claims => ret (Some (Subject claims))
  end.

(** ** Client registry *)

Definition getOrCreateClientWithInfrastructure (email : string) : M ClientData :=
  r <- storageGet (clientKey email) ;;
  match r with
  | Some clientBytes => ret (decodeClient clientBytes)
  | None =>
      clientID <- uuidNew ;;
      environmentID <- uuidNew ;;
      envCreated <- timeNow ;;
      region <- getEnv "REGION" "us-east-1" ;;
      infCreated <- timeNow ;;
      infUpdated <- timeNow ;;
      created <- timeNow ;;
      lastSeen <- timeNow ;;
      let environment :=
        mkEnvironment environmentID clientID
          ("vpn-" +:+ substring 0 8 clientID +:+ ".soltar.com")%string
          443 envCreated "active" region [] [] [] in
      let infrastructure :=
        mkInfrastructure [] [] [] [] infCreated infUpdated in
      let client :=
        mkClientData clientID email created lastSeen
                     environment infrastructure in
      storagePut (clientKey email) (DocClient client) ;;;
      storagePut (idKey clientID) (DocClient client) ;;;
      storagePut (envKey environmentID) (DocEnv environment) ;;;
      ret client
  end.

(** [None] is the nil return. *)
Definition getClientInfrastructure (clientID : string) : M (option ClientData) :=
  r <- storageGet (idKey clientID) ;;
  match r with
  | None => ret None
  | Some clientBytes => ret (Some (decodeClient clientBytes))
  end.

Definition updateClientInfrastructure (clientID : string)
    (infrastructure : Infrastructure) : M unit :=
  r <- getClientInfrastructure clientID ;;
  match r with
  | None => ret tt
  | Some clientData =>
      now <- timeNow ;;
      let updated :=
        setInfrastructure clientData (setLastUpdated infrastructure now) in
      storagePut (idKey clientID) (DocClient updated) ;;;
      storagePut (clientKey (cd_Email updated)) (DocClient updated)
  end.

Definition updateClientLastSeen (clientID : string) : M unit :=
  r <- getClientInfrastructure clientID ;;
  match r with
  | None => ret tt
  | Some clientData =>
      now <- timeNow ;;
      let updated := setLastSeen clientData now in
      storagePut (idKey clientID) (DocClient updated) ;;;
      storagePut (clientKey (cd_Email updated)) (DocClient updated)
  end.

(** ** Handlers

    A request body that [json.NewDecoder(r.Body).Decode] rejects is [None]. *)

Definition handleRegister (body : option OTPRequest) : M Response :=
  match body with
  | None => ret (httpError "Invalid request" StatusBadRequest)
  | Some req =>
      if String.eqb (req_Email req) ""
      then ret (httpError "Missing email" StatusBadRequest)
      else
        otp <- generateOTP ;;
        now <- timeNow ;;
        storagePut (otpKey (req_Email req))
          (DocOTP (mkOTPData otp (Unix (Add now (5 * Minute))) 0)) ;;;
        ret (mkResponse StatusOK (MessageBody "OTP sent to email"))
  end.

Definition handleVerify (body : option OTPVerify) : M VerifyResult :=
  match body with
  | None => ret VerifyBadRequest
  | Some req =>
      let key := otpKey (ver_Email req) in
      r <- storageGet key ;;
      match r with
      | None => ret VerifyNotFound
      | Some (DocRaw _) => ret VerifyUnreadable
      | Some (DocClient _) | Some (DocEnv _) =>
          (* otpData["otp"] is nil, which no string equals *)
          ret VerifyMismatch
      | Some (DocOTP otpData) =>
          if negb (String.eqb (otp_code otpData) (ver_OTP req))
          then ret VerifyMismatch
          else
            now <- timeNow ;;
            if Unix now >? otp_expires otpData
            then storageDelete key ;;; ret VerifyExpired
            else
              clientData <- getOrCreateClientWithInfrastructure (ver_Email req) ;;
              token <- generateToken (cd_ID clientData) ;;
              storageDelete key ;;;
              ret (VerifyOK (mkAuthResponse (cd_ID clientData) token
                                            (cd_Environment clientData)))
      end
  end.

Definition handleConnect (r : AuthRequest unit) : M Response :=
  match Authorization r with
  | None => ret (httpError "Unauthorized" StatusUnauthorized)
  | Some token =>
      v <- validateToken token ;;
      match v with
      | None => ret (httpError "Invalid token" StatusUnauthorized)
      | Some clientID =>
          c <- getClientInfrastructure clientID ;;
          match c with
          | None => ret (httpError "Client not found" StatusNotFound)
          | Some clientData =>
              updateClientLastSeen clientID ;;;
              ret (mkResponse StatusOK
                     (ConnectedBody clientID (cd_Environment clientData)))
          end
      end
  end.

Definition handleConfig (r : AuthRequest unit) : M Response :=
  match Authorization r with
  | None => ret (httpError "Unauthorized" StatusUnauthorized)
  | Some token =>
      v <- validateToken token ;;
      match v with
      | None => ret (httpError "Invalid token" StatusUnauthorized)
      | Some clientID =>
          c <- getClientInfrastructure clientID ;;
          match c with
          | None => ret (httpError "Client not found" StatusNotFound)
          | Some clientData =>
              ret (mkResponse StatusOK
                     (ConfigBody
                        (mkVPNConfig
                           (env_VPNServer (cd_Environment clientData))
                           (env_VPNPort (cd_Environment clientData))
                           token
                           (env_ID (cd_Environment clientData)))))
          end
      end
  end.

Definition handleInfrastructure (r : AuthRequest Infrastructure) : M Response :=
  match Authorization r with
  | None => ret (httpError "Unauthorized" StatusUnauthorized)
  | Some token =>
      v <- validateToken token ;;
      match v with
      | None => ret (httpError "Invalid token" StatusUnauthorized)
      | Some clientID =>
          match requestBody r with
          | None => ret (httpError "Invalid request" StatusBadRequest)
          | Some infrastructure =>
              updateClientInfrastructure clientID infrastructure ;;;
              ret (mkResponse StatusOK
                     (InfraUpdatedBody "Infrastructure updated" clientID))
          end
      end
  end.

Definition handleGetInfrastructure (r : AuthRequest unit) : M Response :=
  match Authorization r with
  | None => ret (httpError "Unauthorized" StatusUnauthorized)
  | Some token =>
      v <- validateToken token ;;
      match v with
      | None => ret (httpError "Invalid token" StatusUnauthorized)
      | Some clientID =>
          c <- getClientInfrastructure clientID ;;
          match c with
          | None => ret (httpError "Client not found" StatusNotFound)
          | Some clientData =>
              ret (mkResponse StatusOK
                     (InfraBody clientID (cd_Infrastructure clientData)
                                (cd_Environment clientData)))
          end
      end
  end.

End Service.

(** ** Vocabulary of the properties *)

(** A run of verification attempts for one email, one after the other;
    the world after the last one. *)
Fixpoint verifyAttempts
    (hmacSign : string -> string -> string * RegisteredClaims -> string)
    (email : string) (candidates : list string) (w : World) : World :=
  match candidates with
  | [] => w
  | c :: cs =>
      verifyAttempts hmacSign email cs
        (snd (handleVerify hmacSign (Some (mkOTPVerify email c)) w))
  end.

(** The two client views agree: every by-email record is a client document
    filed under its own email whose by-id record is the same document, and
    every by-id record is a client document filed under its own id whose
    by-email record is the same document. *)
Definition viewsConsistent (s : gmap string Doc) : Prop :=
  (forall email d, s !! clientKey email = Some d ->
     exists c, d = DocClient c /\ cd_Email c = email /\
               s !! idKey (cd_ID c) = Some (DocClient c)) /\
  (forall id d, s !! idKey id = Some d ->
     exists c, d = DocClient c /\ cd_ID c = id /\
               s !! clientKey (cd_Email c) = Some (DocClient c)).

(** ** Closed examples *)

(** A stand-in for HMAC in the examples. *)
Definition exampleHmac (alg key : string) (input : string * RegisteredClaims)
  : string :=
  (alg +:+ ":" +:+ key +:+ ":" +:+ Subject (snd input))%string.

(** A world whose clock reads [readings n] at the n-th call, with the given
    store, an empty process environment, uuids ["uuid-a"], ["uuid-b"] and
    zero random bytes. *)
Definition exampleWorld (s : gmap string Doc) (readings : nat -> Time) : World :=
  mkWorld s readings 0
          (fun n => match n with O => "uuid-aaaa" | _ => "uuid-bbbb" end) 0
          (fun _ => x00) 0
          (fun _ => "").

Definition exampleEnvironment : Environment :=
  mkEnvironment "e1" "c1" "vpn-c1.soltar.com" 443 0 "active" "us-east-1"
                [] [] [].

Definition exampleClient : ClientData :=
  mkClientData "c1" "a@x.com" 0 0 exampleEnvironment
               (mkInfrastructure ["vpn-1"] [] [] [] 0 (100 * Second)).

(** A store holding [exampleClient] under both client keys. *)
Definition exampleStore : gmap string Doc :=
  <[idKey "c1" := DocClient exampleClient]>
    (<[clientKey "a@x.com" := DocClient exampleClient]> ∅).

(** A store holding one OTP record for a@x.com, code 123456, expiring at
    Unix second 300. *)
Definition exampleOTP : OTPData := mkOTPData "123456" 300 0.

Definition exampleOTPStore : gmap string Doc :=
  <[otpKey "a@x.com" := DocOTP exampleOTP]> ∅.

(** ** Request routing (handleRequest) and the debug handlers *)

(** [strings.HasPrefix(s, prefix)] *)
Definition HasPrefix (s pre : string) : bool := String.prefix pre s.

(** [strings.TrimPrefix(s, prefix)] *)
Definition TrimPrefix (s pre : string) : string :=
  if HasPrefix s pre
  then substring (String.length pre) (String.length s - String.length pre) s
  else s.

(** [strings.Split(s, sep)] for a one-byte separator: the pieces between
    the separators, one piece more than there are separators. *)
Fixpoint Split (s : string) (sep : ascii) : list string :=
  match s with
  | EmptyString => [EmptyString]
  | String c s' =>
      if Ascii.eqb c sep then EmptyString :: Split s' sep
      else match Split s' sep with
           | [] => [String c EmptyString]
           | p :: ps => String c p :: ps
           end
  end.

(** An HTTP request as the handlers see it: method, URL path, the
    Authorization header (as in [AuthRequest]) and the body as each
    handler's JSON decoder reads it, [None] where that decoder fails. *)
Record HTTPRequest := mkHTTPRequest {
  Method : string;
  URLPath : string;
  hdrAuthorization : option TokenString;
  bodyOTPRequest : option OTPRequest;
  bodyOTPVerify : option OTPVerify;
  bodyInfrastructure : option Infrastructure
}.

(** What handleRequest does with a request. *)
Inductive Outcome :=
| Preflight                                   (* OPTIONS: 200, no body *)
| Healthy                                     (* 200, status healthy *)
| Replied (r : Response)                      (* a handler's response *)
| DebugValue (key : string) (data : Doc)      (* 200, key with its bytes *)
| DebugKeys (available_keys : list string) (total_keys : Z)
| StaticFile (path : string).                 (* left to http.FileServer *)

(** The headers set on every API response before dispatch. *)
Definition apiHeaders : list (string * string) :=
  [("Content-Type", "application/json");
   ("Access-Control-Allow-Origin", "*");
   ("Access-Control-Allow-Methods", "GET, POST, OPTIONS");
   ("Access-Control-Allow-Headers", "Content-Type, Authorization")]%string.

Definition isAPIPath (path : string) : bool :=
  HasPrefix path "/register" || HasPrefix path "/verify" ||
  HasPrefix path "/connect" || HasPrefix path "/config" ||
  HasPrefix path "/infrastructure" || HasPrefix path "/health" ||
  HasPrefix path "/debug".

(** [handleDebug]: the in-memory store's error for a missing key reads
    ["key not found: <key>"]. *)
Definition handleDebug (key : string) : M Outcome :=
  r <- storageGet key ;;
  match r with
  | None =>
      ret (Replied (httpError ("Key not found: key not found: " +:+ key)%string
                              StatusNotFound))
  | Some data => ret (DebugValue key data)
  end.

Definition handleDebugList : M Outcome :=
  r1 <- storageGet "client_ac5f3df0-4f70-4cb2-846d-5cc0e4f2e2c9" ;;
  let keys1 :=
    match r1 with
    | Some _ => ["client_ac5f3df0-4f70-4cb2-846d-5cc0e4f2e2c9"%string]
    | None => []
    end in
  r2 <- storageGet "otp:glassrye@gmail.com" ;;
  let keys2 :=
    match r2 with
    | Some _ => keys1 ++ ["otp:glassrye@gmail.com"%string]
    | None => keys1
    end in
  ret (DebugKeys keys2 (Z.of_nat (List.length keys2))).

Section Routing.

Variable hmacSign : string -> string -> string * RegisteredClaims -> string.

Definition authRequest {B : Type} (r : HTTPRequest) (b : option B)
  : AuthRequest B :=
  mkAuthRequest (hdrAuthorization r) b.

(** The [switch] of handleRequest over the method and the first path
    segment, first matching case first. *)
Definition dispatch (r : HTTPRequest) (parts : list string) : M Outcome :=
  let p0 := List.hd EmptyString parts in
  let isGET := String.eqb (Method r) "GET" in
  let isPOST := String.eqb (Method r) "POST" in
  if isGET && String.eqb p0 "health" then ret Healthy
  else if isGET && String.eqb p0 "debug" && (1 <? List.length parts)%nat
  then handleDebug (List.nth 1 parts EmptyString)
  else if isGET && String.eqb p0 "debug" && (List.length parts =? 1)%nat
  then handleDebugList
  else if isPOST && String.eqb p0 "register"
  then x <- handleRegister (bodyOTPRequest r) ;; ret (Replied x)
  else if isPOST && String.eqb p0 "verify"
  then x <- handleVerify hmacSign (bodyOTPVerify r) ;;
       ret (Replied (verifyResponse x))
  else if isPOST && String.eqb p0 "connect"
  then x <- handleConnect hmacSign (authRequest r (Some tt)) ;; ret (Replied x)
  else if isGET && String.eqb p0 "config"
  then x <- handleConfig hmacSign (authRequest r (Some tt)) ;; ret (Replied x)
  else if isPOST && String.eqb p0 "infrastructure"
  then x <- handleInfrastructure hmacSign
              (authRequest r (bodyInfrastructure r)) ;;
       ret (Replied x)
  else if isGET && String.eqb p0 "infrastructure"
  then x <- handleGetInfrastructure hmacSign (authRequest r (Some tt)) ;;
       ret (Replied x)
  else ret (Replied (httpError "Not found" StatusNotFound)).

(** [handleRequest]: the response headers it sets and what it does. *)
Definition handleRequest (r : HTTPRequest)
  : M (list (string * string) * Outcome) :=
  if isAPIPath (URLPath r)
  then
    if String.eqb (Method r) "OPTIONS"
    then ret (apiHeaders, Preflight)
    else
      let path := TrimPrefix (URLPath r) "/" in
      let parts := Split path "/"%char in
      o <- dispatch r parts ;;
      ret (apiHeaders, o)
  else ret ([], StaticFile (URLPath r)).

End Routing.

(** ** Start-up: choosing the storage backend (main) *)

Inductive Backend := RedisBackend | InMemoryBackend.

(** The connection loop [for i := 0; i < 20; i++]: [connect i] tells
    whether [NewRedisStorage] succeeds at attempt [i]; a failed attempt is
    followed by a sleep of 5 seconds.  The result is the index of the
    successful attempt, if any, and the time slept. *)
Fixpoint connectLoop (connect : nat -> bool) (i remaining : nat)
  : option nat * Z :=
  match remaining with
  | O => (None, 0)
  | S remaining' =>
      if connect i then (Some i, 0)
      else let (r, slept) := connectLoop connect (S i) remaining' in
           (r, 5 * Second + slept)
  end.

(** The backend main ends up with. *)
Definition selectStorage (connect : nat -> bool) : Backend :=
  match fst (connectLoop connect 0 20) with
  | Some _ => RedisBackend
  | None => InMemoryBackend
  end.

(** The [exp] claim of a token string, when it has one. *)
Definition tokenExpiry (t : TokenString) : option Time :=
  match t with
  | Compact _ c _ => ExpiresAt c
  | Malformed _ => None
  end.

(** A string without the path separator. *)
Fixpoint noSlash (s : string) : bool :=
  match s with
  | EmptyString => true
  | String c s' => negb (Ascii.eqb c "/"%char) && noSlash s'
  end.

(** A request without token or body, for the examples. *)
Definition exampleRequest (method path : string) : HTTPRequest :=
  mkHTTPRequest method path None None None None.
(** ** The OTP generator *)

Lemma land_shiftl_low (hi lo n : Z) :
  0 <= n -> 0 <= lo < 2 ^ n -> Z.land (Z.shiftl hi n) lo = 0.
Proof.
  intros Hn Hlo. apply Z.bits_inj'. intros i Hi.
  rewrite Z.land_spec, Z.bits_0.
  destruct (Z.lt_ge_cases i n) as [Hlt | Hge].
  - rewrite Z.shiftl_spec_low by lia. reflexivity.
  - destruct (Z.eq_dec lo 0) as [-> | Hnz].
    + rewrite Z.bits_0. apply andb_false_r.
    + rewrite (Z.bits_above_log2 lo i); [apply andb_false_r | lia |].
      apply Z.log2_lt_pow2; [lia |].
      apply Z.lt_le_trans with (2 ^ n); [lia |].
      apply Z.pow_le_mono_r; lia.
Qed.

Lemma byteVal_range (b : byte) : 0 <= byteVal b < 256.
Proof.
  unfold byteVal. pose proof (Byte.to_N_bounded b) as H. lia.
Qed.

Lemma otpValue_sum (b0 b1 b2 : byte) :
  otpValue b0 b1 b2 = byteVal b0 * 65536 + byteVal b1 * 256 + byteVal b2.
Proof.
  unfold otpValue.
  pose proof (byteVal_range b0) as H0. pose proof (byteVal_range b1) as H1.
  pose proof (byteVal_range b2) as H2.
  assert (E1 : Z.shiftl (byteVal b0) 16 = Z.shiftl (byteVal b0 * 256) 8).
  { rewrite !Z.shiftl_mul_pow2 by lia. change (2 ^ 16) with 65536. change (2 ^ 8) with 256. lia. }
  rewrite E1, <- Z.shiftl_lor.
  rewrite <- (Z.add_nocarry_lor (byteVal b0 * 256) (byteVal b1)).
  2:{ replace (byteVal b0 * 256) with (Z.shiftl (byteVal b0) 8)
        by (rewrite Z.shiftl_mul_pow2 by lia; reflexivity).
      apply land_shiftl_low; [lia | change (2 ^ 8) with 256; lia]. }
  rewrite <- Z.add_nocarry_lor
    by (apply land_shiftl_low; [lia | change (2 ^ 8) with 256; lia]).
  rewrite Z.shiftl_mul_pow2 by lia. change (2 ^ 8) with 256. lia.
Qed.
Lemma fmtDigits_last (f : nat) (u : Z) (buf : string) :
  u < 10 -> Fmt.fmtDigits (S f) u buf = String (Fmt.digitChar u) buf.
Proof.
  intros H. simpl. destruct (Z.leb_spec 10 u); [lia | reflexivity].
Qed.

Lemma fmtDigits_more (f : nat) (u : Z) (buf : string) :
  10 <= u ->
  Fmt.fmtDigits (S f) u buf =
  Fmt.fmtDigits f (u / 10) (String (Fmt.digitChar (u mod 10)) buf).
Proof.
  intros H. simpl. destruct (Z.leb_spec 10 u); [| lia].
  replace (u - u / 10 * 10) with (u mod 10) by (Z.div_mod_to_equations; lia).
  reflexivity.
Qed.

Lemma digitChar_0 : Fmt.digitChar 0 = "0"%char.
Proof. reflexivity. Qed.

Lemma otpNumber_cases (v : Z) :
  (v < 1000000 /\ otpNumber v = v) \/
  (1000000 <= v < 10000000 /\ otpNumber v = v / 10) \/
  (10000000 <= v /\ otpNumber v = v / 100).
Proof.
  unfold otpNumber.
  destruct (Z.ltb_spec v 1000000); [left; auto |].
  destruct (Z.ltb_spec v 10000000); [right; left; auto | right; right; auto].
Qed.

Ltac digits_step :=
  first [ rewrite fmtDigits_more by (Z.div_mod_to_equations; lia)
        | rewrite fmtDigits_last by (Z.div_mod_to_equations; lia) ].

Ltac same_digits :=
  repeat (apply (f_equal2 String);
          [apply (f_equal Fmt.digitChar); Z.div_mod_to_equations; lia |]);
  try reflexivity.

Lemma generateOTP_value (v : Z) :
  0 <= v < 16777216 ->
  otpOfValue v = code6 (otpNumber v).
Proof.
  intros Hv. unfold otpOfValue, Fmt.sprintf_06d, code6.
  destruct (otpNumber_cases v) as [[Hr ->] | [[Hr ->] | [Hr ->]]].
  - assert (Hc : v < 10 \/ 10 <= v < 100 \/ 100 <= v < 1000 \/
                 1000 <= v < 10000 \/ 10000 <= v < 100000 \/ 100000 <= v)
      by lia.
    destruct Hc as [H|[H|[H|[H|[H|H]]]]].
    all: repeat digits_step; cbn [String.length Nat.sub Fmt.zeroPad substring].
    all: rewrite <- ?digitChar_0; same_digits.
  - repeat digits_step. cbn [String.length Nat.sub Fmt.zeroPad substring].
    same_digits.
  - repeat digits_step. cbn [String.length Nat.sub Fmt.zeroPad substring].
    same_digits.
Qed.
Lemma digitChar_code (d : Z) :
  0 <= d < 10 -> N_of_ascii (Fmt.digitChar d) = (48 + Z.to_N d)%N.
Proof.
  intros Hd. unfold Fmt.digitChar. apply N_ascii_embedding. lia.
Qed.

Lemma digitChar_isDigit (d : Z) : 0 <= d < 10 -> isDigit (Fmt.digitChar d).
Proof.
  intros Hd. unfold isDigit. rewrite digitChar_code by assumption. lia.
Qed.

Lemma digitChar_inj (d e : Z) :
  0 <= d < 10 -> 0 <= e < 10 -> Fmt.digitChar d = Fmt.digitChar e -> d = e.
Proof.
  intros Hd He Heq. apply (f_equal N_of_ascii) in Heq.
  rewrite !digitChar_code in Heq by assumption. lia.
Qed.

Lemma code6_length (n : Z) : String.length (code6 n) = 6%nat.
Proof. reflexivity. Qed.

Lemma code6_allDigits (n : Z) : allDigits (code6 n).
Proof.
  unfold code6; cbn [allDigits].
  repeat split; apply digitChar_isDigit; apply Z.mod_pos_bound; lia.
Qed.

Lemma code6_inj (a b : Z) :
  0 <= a < 1000000 -> 0 <= b < 1000000 -> code6 a = code6 b -> a = b.
Proof.
  intros Ha Hb Heq. unfold code6 in Heq.
  injection Heq as E5 E4 E3 E2 E1 E0.
  apply digitChar_inj in E5, E4, E3, E2, E1, E0;
    try (apply Z.mod_pos_bound; lia).
  Z.div_mod_to_equations. lia.
Qed.

Lemma otpNumber_range (v : Z) :
  0 <= v < 16777216 -> 0 <= otpNumber v < 1000000.
Proof.
  intros Hv.
  destruct (otpNumber_cases v) as [[Hr ->] | [[Hr ->] | [Hr ->]]];
    Z.div_mod_to_equations; lia.
Qed.

Lemma otpValue_range (b0 b1 b2 : byte) : 0 <= otpValue b0 b1 b2 < 16777216.
Proof.
  rewrite otpValue_sum.
  pose proof (byteVal_range b0). pose proof (byteVal_range b1).
  pose proof (byteVal_range b2). lia.
Qed.

Lemma byteVal_zero (b : byte) : byteVal b = 0 -> b = x00.
Proof.
  unfold byteVal. intros H.
  assert (E : Byte.to_N b = 0%N) by lia.
  pose proof (Byte.of_to_N b) as Hb. rewrite E in Hb.
  simpl in Hb. congruence.
Qed.

Lemma leading_zero_preimage (v c : Z) :
  0 <= v < 16777216 -> 0 <= c < 100000 -> otpOfValue v = code6 c -> v = c.
Proof.
  intros Hv Hc Heq. rewrite generateOTP_value in Heq by assumption.
  apply code6_inj in Heq; [| apply otpNumber_range; assumption | lia].
  destruct (otpNumber_cases v) as [[Hr E] | [[Hr E] | [Hr E]]];
    rewrite E in Heq; Z.div_mod_to_equations; lia.
Qed.

Lemma two_preimages (c : Z) :
  100000 <= c < 1000000 ->
  otpOfValue c = code6 c /\ otpOfValue (10 * c) = code6 c.
Proof.
  intros Hc. split.
  - rewrite generateOTP_value by lia. f_equal.
    destruct (otpNumber_cases c) as [[Hr E] | [[Hr E] | [Hr E]]]; lia.
  - rewrite generateOTP_value by lia. f_equal.
    destruct (otpNumber_cases (10 * c)) as [[Hr E] | [[Hr E] | [Hr E]]];
      rewrite ?E; Z.div_mod_to_equations; lia.
Qed.

(** C1 (amended): every generated code is a string of exactly six decimal
    digits, leading zeros kept: the six leading digits of the zero-padded
    decimal form of the 24-bit value of the three random bytes.  The codes
    are not uniformly distributed: a code below 100000 has the value equal
    to it as its only 24-bit preimage, while a code from 100000 on has at
    least two, the value itself and ten times it. *)
Theorem generateOTP_six_digits_not_uniform :
  (forall b0 b1 b2 : byte,
      String.length (generateOTP_from b0 b1 b2) = 6%nat /\
      allDigits (generateOTP_from b0 b1 b2) /\
      generateOTP_from b0 b1 b2 = code6 (otpNumber (otpValue b0 b1 b2))) /\
  (forall v c : Z, 0 <= v < 16777216 -> 0 <= c < 100000 ->
      otpOfValue v = code6 c -> v = c) /\
  (forall c : Z, 100000 <= c < 1000000 ->
      otpOfValue c = code6 c /\ otpOfValue (10 * c) = code6 c).
Proof.
  split; [| split].
  - intros b0 b1 b2. unfold generateOTP_from.
    rewrite generateOTP_value by apply otpValue_range.
    split; [apply code6_length |]. split; [apply code6_allDigits | reflexivity].
  - exact leading_zero_preimage.
  - exact two_preimages.
Qed.

Lemma generateOTP_from_zero (t : byte * byte * byte) :
  generateOTP_from (fst (fst t)) (snd (fst t)) (snd t) = code6 0 ->
  t = (x00, x00, x00).
Proof.
  destruct t as [[b0 b1] b2]; cbn [fst snd]. intros H.
  unfold generateOTP_from in H.
  apply leading_zero_preimage in H; [| apply otpValue_range | lia].
  rewrite otpValue_sum in H.
  pose proof (byteVal_range b0). pose proof (byteVal_range b1).
  pose proof (byteVal_range b2).
  rewrite (byteVal_zero b0), (byteVal_zero b1), (byteVal_zero b2) by lia.
  reflexivity.
Qed.

Lemma generateOTP_not_uniform : ~ uniformCodes.
Proof.
  intros [k Hk].
  destruct (Hk 0 ltac:(lia)) as (l0 & Hnd0 & Hlen0 & Hin0).
  destruct (Hk 100000 ltac:(lia)) as (l1 & Hnd1 & Hlen1 & Hin1).
  assert (Hk1 : (k <= 1)%nat).
  { rewrite <- Hlen0. clear - Hnd0 Hin0.
    assert (Hall : forall t, List.In t l0 -> t = (x00, x00, x00)).
    { intros t Ht. apply generateOTP_from_zero, Hin0, Ht. }
    destruct l0 as [| a [| b l]]; simpl; try lia.
    exfalso. inversion Hnd0 as [| ? ? Hn _]; subst. apply Hn.
    left. rewrite (Hall a), (Hall b); simpl; auto. }
  assert (Ha : List.In (x01, x86, xa0) l1) by (apply Hin1; vm_compute; reflexivity).
  assert (Hb : List.In (x0f, x42, x40) l1) by (apply Hin1; vm_compute; reflexivity).
  destruct l1 as [| a [| b l]]; simpl in *.
  - contradiction.
  - destruct Ha as [-> | []]. destruct Hb as [Hb | []]. discriminate.
  - lia.
Qed.
(** ** Keys of different kinds never coincide *)

Lemma otpKey_clientKey (e e' : string) : otpKey e <> clientKey e'.
Proof. unfold otpKey, clientKey; intros H; cbv in H; congruence. Qed.

Lemma otpKey_idKey (e i : string) : otpKey e <> idKey i.
Proof. unfold otpKey, idKey; intros H; cbv in H; congruence. Qed.

Lemma otpKey_envKey (e i : string) : otpKey e <> envKey i.
Proof. unfold otpKey, envKey; intros H; cbv in H; congruence. Qed.

Lemma clientKey_idKey (e i : string) : clientKey e <> idKey i.
Proof. unfold clientKey, idKey; intros H; cbv in H; congruence. Qed.

Lemma clientKey_envKey (e i : string) : clientKey e <> envKey i.
Proof. unfold clientKey, envKey; intros H; cbv in H; congruence. Qed.

Lemma idKey_envKey (i j : string) : idKey i <> envKey j.
Proof. unfold idKey, envKey; intros H; cbv in H; congruence. Qed.

Lemma clientKey_inj (e e' : string) : clientKey e = clientKey e' -> e = e'.
Proof. unfold clientKey; intros H; cbv in H; congruence. Qed.

Lemma idKey_inj (i j : string) : idKey i = idKey j -> i = j.
Proof. unfold idKey; intros H; cbv in H; congruence. Qed.

Lemma otpKey_inj (e e' : string) : otpKey e = otpKey e' -> e = e'.
Proof. unfold otpKey; intros H; cbv in H; congruence. Qed.

(** ** Running computations *)

Lemma bind_run {A B : Type} (m : M A) (k : A -> M B) (w : World) :
  bind m k w = k (fst (m w)) (snd (m w)).
Proof. unfold bind. destruct (m w); reflexivity. Qed.

Lemma withStorage_storage (s : gmap string Doc) (w : World) :
  storage (withStorage s w) = s.
Proof. reflexivity. Qed.
Ltac run :=
  repeat (rewrite bind_run;
          cbn beta iota delta
            [fst snd ret storageGet storagePut storageDelete timeNow uuidNew
             randByte getEnv secret Get Put Delete withStorage storage clock
             ticks uuidSource uuidsDrawn randSource randDrawn environ]).

Ltac keys_ne :=
  solve [ auto using otpKey_clientKey, otpKey_idKey, otpKey_envKey,
            clientKey_idKey, clientKey_envKey, idKey_envKey
        | apply not_eq_sym;
          auto using otpKey_clientKey, otpKey_idKey, otpKey_envKey,
            clientKey_idKey, clientKey_envKey, idKey_envKey ].

Section Properties.

Variable hmacSign : string -> string -> string * RegisteredClaims -> string.

Lemma getOrCreate_existing (email : string) (w : World) (d : Doc) :
  storage w !! clientKey email = Some d ->
  getOrCreateClientWithInfrastructure email w = (decodeClient d, w).
Proof.
  intros H. unfold getOrCreateClientWithInfrastructure.
  rewrite bind_run. unfold storageGet, Get. cbn [fst snd]. rewrite H.
  reflexivity.
Qed.

Lemma getOrCreate_new (email : string) (w : World) :
  storage w !! clientKey email = None ->
  let c := fst (getOrCreateClientWithInfrastructure email w) in
  storage (snd (getOrCreateClientWithInfrastructure email w)) =
    <[envKey (env_ID (cd_Environment c)) := DocEnv (cd_Environment c)]>
      (<[idKey (cd_ID c) := DocClient c]>
         (<[clientKey email := DocClient c]> (storage w))) /\
  cd_ID c = uuidSource w (uuidsDrawn w) /\
  cd_Email c = email.
Proof.
  intros H. unfold getOrCreateClientWithInfrastructure.
  rewrite bind_run. unfold storageGet, Get. cbn [fst snd]. rewrite H.
  run. cbn [cd_ID cd_Email cd_Environment env_ID]. unfold Put.
  split; [reflexivity | split; reflexivity].
Qed.

Lemma getOrCreate_otp (email e : string) (w : World) :
  storage (snd (getOrCreateClientWithInfrastructure email w)) !! otpKey e =
  storage w !! otpKey e.
Proof.
  destruct (storage w !! clientKey email) as [d |] eqn:H.
  - rewrite (getOrCreate_existing _ _ _ H). reflexivity.
  - destruct (getOrCreate_new _ _ H) as (-> & _ & _).
    rewrite !lookup_insert_ne by keys_ne. reflexivity.
Qed.

(** *** handleVerify, branch by branch *)

Lemma handleVerify_not_found (email candidate : string) (w : World) :
  storage w !! otpKey email = None ->
  handleVerify hmacSign (Some (mkOTPVerify email candidate)) w =
  (VerifyNotFound, w).
Proof.
  intros H. unfold handleVerify. cbn [ver_Email ver_OTP].
  rewrite bind_run. unfold storageGet, Get. cbn [fst snd]. rewrite H.
  reflexivity.
Qed.

Lemma handleVerify_mismatch (email candidate : string) (rec : OTPData)
    (w : World) :
  storage w !! otpKey email = Some (DocOTP rec) ->
  otp_code rec <> candidate ->
  handleVerify hmacSign (Some (mkOTPVerify email candidate)) w =
  (VerifyMismatch, w).
Proof.
  intros H Hne. unfold handleVerify. cbn [ver_Email ver_OTP].
  rewrite bind_run. unfold storageGet, Get. cbn [fst snd]. rewrite H.
  apply String.eqb_neq in Hne. rewrite Hne. reflexivity.
Qed.

Lemma handleVerify_expired (email : string) (rec : OTPData) (w : World) :
  storage w !! otpKey email = Some (DocOTP rec) ->
  Unix (clock w (ticks w)) > otp_expires rec ->
  handleVerify hmacSign (Some (mkOTPVerify email (otp_code rec))) w =
  (VerifyExpired,
   withStorage (delete (otpKey email) (storage w)) (snd (timeNow w))).
Proof.
  intros H Hexp. unfold handleVerify. cbn [ver_Email ver_OTP].
  rewrite bind_run. unfold storageGet, Get. cbn [fst snd]. rewrite H.
  rewrite String.eqb_refl. cbn [negb].
  rewrite bind_run. cbn [timeNow fst snd].
  destruct (Z.gtb_spec (Unix (clock w (ticks w))) (otp_expires rec)); [| lia].
  reflexivity.
Qed.

Lemma handleVerify_ok (email : string) (rec : OTPData) (w : World) :
  storage w !! otpKey email = Some (DocOTP rec) ->
  Unix (clock w (ticks w)) <= otp_expires rec ->
  let w1 := snd (timeNow w) in
  let g := getOrCreateClientWithInfrastructure email w1 in
  let t := generateToken hmacSign (cd_ID (fst g)) (snd g) in
  handleVerify hmacSign (Some (mkOTPVerify email (otp_code rec))) w =
  (VerifyOK (mkAuthResponse (cd_ID (fst g)) (fst t) (cd_Environment (fst g))),
   withStorage (delete (otpKey email) (storage (snd t))) (snd t)).
Proof.
  intros H Hexp w1 g t. unfold handleVerify. cbn [ver_Email ver_OTP].
  rewrite bind_run. unfold storageGet, Get. cbn [fst snd]. rewrite H.
  rewrite String.eqb_refl. cbn [negb].
  rewrite bind_run. cbn [timeNow fst snd].
  destruct (Z.gtb_spec (Unix (clock w (ticks w))) (otp_expires rec)); [lia |].
  rewrite bind_run. fold w1. fold g.
  rewrite bind_run. fold t.
  rewrite bind_run. reflexivity.
Qed.

Lemma generateToken_run (clientID : string) (w : World) :
  generateToken hmacSign clientID w =
  (SignedString hmacSign (fst (secret w))
     (mkClaims clientID (NewNumericDate (clock w (ticks w)))
        (NewNumericDate (Add (clock w (S (ticks w))) (24 * Hour))) None),
   snd (timeNow (snd (timeNow w)))).
Proof. unfold generateToken. run. reflexivity. Qed.

Lemma generateToken_storage (clientID : string) (w : World) :
  storage (snd (generateToken hmacSign clientID w)) = storage w.
Proof. rewrite generateToken_run. reflexivity. Qed.
End Properties.
Section OTPProperties.

Variable hmacSign : string -> string -> string * RegisteredClaims -> string.

(** C10: a candidate that differs from the stored code gets the mismatch
    answer and leaves the whole world, the store included, as it was; the
    expiry of the record plays no part, so a wrong candidate against an
    expired record is a mismatch too and the record stays. *)
Theorem verify_mismatch_leaves_store
    (email candidate : string) (rec : OTPData) (w : World) :
  storage w !! otpKey email = Some (DocOTP rec) ->
  otp_code rec <> candidate ->
  let r := handleVerify hmacSign (Some (mkOTPVerify email candidate)) w in
  fst r = VerifyMismatch /\
  snd r = w /\
  storage (snd r) !! otpKey email = Some (DocOTP rec) /\
  verifyResponse (fst r) = httpError "Invalid OTP" StatusBadRequest.
Proof.
  intros H Hne r. subst r.
  rewrite (handleVerify_mismatch hmacSign _ _ _ _ H Hne). cbn [fst snd].
  repeat split. exact H.
Qed.

(** C2: with a pending record that has not expired, verifying with the
    stored code succeeds and deletes the record; the same call again takes
    the record-absent return. *)
Theorem verify_succeeds_once (email : string) (rec : OTPData) (w : World) :
  storage w !! otpKey email = Some (DocOTP rec) ->
  Unix (clock w (ticks w)) <= otp_expires rec ->
  let req := Some (mkOTPVerify email (otp_code rec)) in
  let r1 := handleVerify hmacSign req w in
  let r2 := handleVerify hmacSign req (snd r1) in
  (exists a, fst r1 = VerifyOK a) /\
  storage (snd r1) !! otpKey email = None /\
  fst r2 = VerifyNotFound /\
  snd r2 = snd r1.
Proof.
  intros H Hexp req r1 r2.
  assert (Hgone : storage (snd r1) !! otpKey email = None).
  { subst r1 req. rewrite (handleVerify_ok hmacSign _ _ _ H Hexp).
    cbn [snd]. rewrite withStorage_storage. apply lookup_delete_eq. }
  split.
  - subst r1 req. rewrite (handleVerify_ok hmacSign _ _ _ H Hexp).
    cbn [fst]. eexists. reflexivity.
  - split; [exact Hgone |].
    subst r2 req. rewrite (handleVerify_not_found hmacSign _ _ _ Hgone).
    split; reflexivity.
Qed.


Lemma handleVerify_otp_record (body : option OTPVerify) (e : string) (w : World) :
  storage (snd (handleVerify hmacSign body w)) !! otpKey e =
    storage w !! otpKey e \/
  storage (snd (handleVerify hmacSign body w)) !! otpKey e = None.
Proof.
  destruct body as [[email candidate] |]; [| left; reflexivity].
  destruct (storage w !! otpKey email) as [d |] eqn:H.
  2:{ rewrite (handleVerify_not_found hmacSign _ _ _ H). left; reflexivity. }
  destruct d as [rec | c | en | raw].
  2,3,4: left; unfold handleVerify; cbn [ver_Email ver_OTP];
    rewrite bind_run; unfold storageGet, Get; cbn [fst snd]; rewrite H;
    reflexivity.
  destruct (String.eqb_spec (otp_code rec) candidate) as [<- | Hne].
  2:{ rewrite (handleVerify_mismatch hmacSign _ _ _ _ H Hne). left; reflexivity. }
  assert (Hdel : forall s : gmap string Doc,
             s !! otpKey e = storage w !! otpKey e ->
             delete (otpKey email) s !! otpKey e = storage w !! otpKey e \/
             delete (otpKey email) s !! otpKey e = None).
  { intros s Hs. destruct (decide (otpKey email = otpKey e)) as [-> | Hk].
    - right. apply lookup_delete_eq.
    - left. rewrite lookup_delete_ne by exact Hk. exact Hs. }
  destruct (Z.gtb_spec (Unix (clock w (ticks w))) (otp_expires rec)) as [Hx | Hx].
  - rewrite (handleVerify_expired hmacSign _ _ _ H) by lia.
    cbn [snd]. rewrite withStorage_storage. apply Hdel. reflexivity.
  - rewrite (handleVerify_ok hmacSign _ _ _ H Hx).
    cbn [snd]. rewrite withStorage_storage. apply Hdel.
    rewrite generateToken_storage, getOrCreate_otp. reflexivity.
Qed.

Lemma handleRegister_stores (email : string) (w : World) :
  email <> ""%string ->
  let w1 := snd (generateOTP w) in
  handleRegister (Some (mkOTPRequest email)) w =
  (mkResponse StatusOK (MessageBody "OTP sent to email"),
   withStorage
     (<[otpKey email :=
          DocOTP (mkOTPData (fst (generateOTP w))
                            (Unix (Add (clock w1 (ticks w1)) (5 * Minute))) 0)]>
        (storage w))
     (snd (timeNow w1))).
Proof.
  intros Hne w1. unfold handleRegister. cbn [req_Email].
  apply String.eqb_neq in Hne. rewrite Hne.
  rewrite bind_run. fold w1. rewrite bind_run. cbn [timeNow fst snd].
  rewrite bind_run. reflexivity.
Qed.

Lemma verifyAttempts_wrong (email : string) (rec : OTPData)
    (candidates : list string) (w : World) :
  storage w !! otpKey email = Some (DocOTP rec) ->
  Forall (fun c => otp_code rec <> c) candidates ->
  verifyAttempts hmacSign email candidates w = w.
Proof.
  intros H Hall. induction Hall as [| c cs Hc _ IH]; [reflexivity |].
  cbn [verifyAttempts].
  rewrite (handleVerify_mismatch hmacSign _ _ _ _ H Hc). exact IH.
Qed.

(** C9 (amended): the record is issued with an attempt count of 0;
    verification never writes the record (after any verification it is
    either as before or gone), so no attempt changes the count; and the
    count gates nothing: whatever it holds, and after any number of wrong
    candidates, the stored code still verifies while the record is
    unexpired. *)
Theorem attempts_issued_zero_never_updated_never_gate :
  (forall email w, email <> ""%string ->
     exists rec,
       storage (snd (handleRegister (Some (mkOTPRequest email)) w))
         !! otpKey email = Some (DocOTP rec) /\
       otp_attempts rec = 0) /\
  (forall body e w,
     storage (snd (handleVerify hmacSign body w)) !! otpKey e =
       storage w !! otpKey e \/
     storage (snd (handleVerify hmacSign body w)) !! otpKey e = None) /\
  (forall email rec candidates w,
     storage w !! otpKey email = Some (DocOTP rec) ->
     Forall (fun c => otp_code rec <> c) candidates ->
     Unix (clock w (ticks w)) <= otp_expires rec ->
     exists a,
       fst (handleVerify hmacSign (Some (mkOTPVerify email (otp_code rec)))
              (verifyAttempts hmacSign email candidates w)) = VerifyOK a).
Proof.
  split; [| split].
  - intros email w Hne. rewrite (handleRegister_stores _ _ Hne).
    cbn [snd]. rewrite withStorage_storage. eexists. split.
    + apply lookup_insert_eq.
    + reflexivity.
  - apply handleVerify_otp_record.
  - intros email rec candidates w H Hall Hexp.
    rewrite (verifyAttempts_wrong _ _ _ _ H Hall).
    rewrite (handleVerify_ok hmacSign _ _ _ H Hexp). cbn [fst].
    eexists. reflexivity.
Qed.

(** C3: getOrCreate called twice for the same email returns the same
    client identifier both times.  After the first call the store holds a
    record under client:<email>, and both calls return the aggregate that
    record decodes to: the one already stored when there was one (the
    first call then changes nothing), the freshly written one otherwise.
    The second call returns the stored aggregate unchanged and leaves the
    world of the first call untouched: no store entry written, no
    identifier drawn. *)
Theorem getOrCreate_twice (email : string) (w : World) :
  let r1 := getOrCreateClientWithInfrastructure email w in
  let r2 := getOrCreateClientWithInfrastructure email (snd r1) in
  (exists d, storage (snd r1) !! clientKey email = Some d /\
             fst r1 = decodeClient d /\ fst r2 = decodeClient d) /\
  (forall d, storage w !! clientKey email = Some d ->
             r1 = (decodeClient d, w)) /\
  (storage w !! clientKey email = None ->
     storage (snd r1) !! clientKey email = Some (DocClient (fst r1)) /\
     cd_Email (fst r1) = email /\
     cd_ID (fst r1) = uuidSource w (uuidsDrawn w)) /\
  cd_ID (fst r2) = cd_ID (fst r1) /\
  fst r2 = fst r1 /\
  snd r2 = snd r1.
Proof.
  intros r1 r2.
  assert (Hst : exists d, storage (snd r1) !! clientKey email = Some d /\
                          fst r1 = decodeClient d /\
                          (storage w !! clientKey email = None ->
                           d = DocClient (fst r1) /\
                           cd_Email (fst r1) = email /\
                           cd_ID (fst r1) = uuidSource w (uuidsDrawn w))).
  { subst r1. destruct (storage w !! clientKey email) as [d |] eqn:H.
    - rewrite (getOrCreate_existing _ _ _ H). cbn [fst snd].
      exists d. split; [exact H |]. split; [reflexivity | discriminate].
    - destruct (getOrCreate_new _ _ H) as (Hs & HID & HEmail).
      exists (DocClient (fst (getOrCreateClientWithInfrastructure email w))).
      split; [| split; [reflexivity | intros _; auto]].
      rewrite Hs. rewrite !lookup_insert_ne by keys_ne.
      apply lookup_insert_eq. }
  destruct Hst as (d & Hd & H1 & Hnew).
  assert (E : r2 = (decodeClient d, snd r1))
    by (subst r2; apply getOrCreate_existing, Hd).
  split; [| split; [| split]].
  - exists d. rewrite E. auto.
  - intros d0 H0. subst r1. apply getOrCreate_existing, H0.
  - intros Hnone. destruct (Hnew Hnone) as (-> & HE & HI).
    rewrite Hd. auto.
  - rewrite E, H1. cbn [fst snd]. auto.
Qed.

End OTPProperties.
Section RegistryProperties.

Variable hmacSign : string -> string -> string * RegisteredClaims -> string.

(** *** Session tokens *)

Lemma validateToken_signed (c : RegisteredClaims) (w : World) :
  validateToken hmacSign (SignedString hmacSign (fst (secret w)) c) w =
  (if validateClaims (clock w (ticks w)) c then Some (Subject c) else None,
   snd (timeNow w)).
Proof.
  unfold validateToken. rewrite bind_run.
  unfold SignedString, ParseWithClaims.
  change (isHMACMethod "HS256") with true. rewrite String.eqb_refl.
  cbn [andb]. replace (snd (secret w)) with w by reflexivity.
  run. destruct (validateClaims (clock w (ticks w)) c); reflexivity.
Qed.

Lemma validateToken_storage (t : TokenString) (w : World) :
  storage (snd (validateToken hmacSign t w)) = storage w.
Proof.
  unfold validateToken. rewrite bind_run.
  replace (snd (secret w)) with w by reflexivity.
  rewrite bind_run. unfold ParseWithClaims.
  destruct t as [raw | alg c sig].
  - reflexivity.
  - destruct (isHMACMethod alg && String.eqb sig (hmacSign alg (fst (secret w)) (alg, c))).
    + rewrite bind_run. cbn [timeNow fst snd].
      destruct (validateClaims (clock w (ticks w)) c); reflexivity.
    + reflexivity.
Qed.

Lemma validate_generated (clientID : string) (w w' : World) :
  fst (secret w') = fst (secret w) ->
  fst (validateToken hmacSign (fst (generateToken hmacSign clientID w)) w') =
  if clock w' (ticks w') <?
     TruncateSecond (Add (clock w (S (ticks w))) (24 * Hour))
  then Some clientID else None.
Proof.
  intros Hkey. rewrite generateToken_run. cbn [fst].
  rewrite <- Hkey, validateToken_signed. cbn [fst].
  unfold validateClaims, NewNumericDate. cbn [ExpiresAt NotBefore Subject].
  rewrite andb_true_r. reflexivity.
Qed.

(** *** Registry reads and writes *)

Lemma getClientInfrastructure_run (clientID : string) (w : World) :
  getClientInfrastructure clientID w =
  (option_map decodeClient (storage w !! idKey clientID), w).
Proof.
  unfold getClientInfrastructure. rewrite bind_run.
  unfold storageGet, Get. cbn [fst snd].
  destruct (storage w !! idKey clientID); reflexivity.
Qed.

Lemma updateClientInfrastructure_missing (clientID : string)
    (m : Infrastructure) (w : World) :
  storage w !! idKey clientID = None ->
  updateClientInfrastructure clientID m w = (tt, w).
Proof.
  intros H. unfold updateClientInfrastructure.
  rewrite bind_run, getClientInfrastructure_run, H. reflexivity.
Qed.

Lemma updateClientInfrastructure_run (clientID : string)
    (m : Infrastructure) (d : Doc) (w : World) :
  storage w !! idKey clientID = Some d ->
  let c' := setInfrastructure (decodeClient d)
              (setLastUpdated m (clock w (ticks w))) in
  updateClientInfrastructure clientID m w =
  (tt,
   withStorage
     (<[clientKey (cd_Email c') := DocClient c']>
        (<[idKey clientID := DocClient c']> (storage w)))
     (snd (timeNow w))).
Proof.
  intros H c'. unfold updateClientInfrastructure.
  rewrite bind_run, getClientInfrastructure_run, H.
  cbn [option_map fst snd]. run. reflexivity.
Qed.

Lemma updateClientLastSeen_missing (clientID : string) (w : World) :
  storage w !! idKey clientID = None ->
  updateClientLastSeen clientID w = (tt, w).
Proof.
  intros H. unfold updateClientLastSeen.
  rewrite bind_run, getClientInfrastructure_run, H. reflexivity.
Qed.

Lemma updateClientLastSeen_run (clientID : string) (d : Doc) (w : World) :
  storage w !! idKey clientID = Some d ->
  let c' := setLastSeen (decodeClient d) (clock w (ticks w)) in
  updateClientLastSeen clientID w =
  (tt,
   withStorage
     (<[clientKey (cd_Email c') := DocClient c']>
        (<[idKey clientID := DocClient c']> (storage w)))
     (snd (timeNow w))).
Proof.
  intros H c'. unfold updateClientLastSeen.
  rewrite bind_run, getClientInfrastructure_run, H.
  cbn [option_map fst snd]. run. reflexivity.
Qed.

(** *** The consistency of the two client views *)

Lemma viewsConsistent_empty : viewsConsistent ∅.
Proof.
  split; intros k d H; rewrite lookup_empty in H; discriminate.
Qed.

Lemma viewsConsistent_rewrite (s : gmap string Doc) (id : string)
    (c c' : ClientData) :
  viewsConsistent s ->
  s !! idKey id = Some (DocClient c) ->
  cd_ID c' = cd_ID c ->
  cd_Email c' = cd_Email c ->
  viewsConsistent
    (<[clientKey (cd_Email c') := DocClient c']>
       (<[idKey id := DocClient c']> s)).
Proof.
  intros [Hem Hid] Hc HID HEmail.
  destruct (Hid _ _ Hc) as (c0 & E0 & Hid0 & Hback). injection E0 as <-.
  split.
  - intros email d Hl.
    destruct (decide (clientKey (cd_Email c') = clientKey email)) as [E | N].
    + rewrite E, lookup_insert_eq in Hl. injection Hl as <-.
      exists c'. split; [reflexivity |]. split; [apply clientKey_inj, E |].
      rewrite lookup_insert_ne by keys_ne.
      rewrite HID, Hid0. apply lookup_insert_eq.
    + rewrite lookup_insert_ne in Hl by exact N.
      rewrite lookup_insert_ne in Hl by keys_ne.
      destruct (Hem _ _ Hl) as (x & -> & Hx & Hxid).
      exists x. split; [reflexivity |]. split; [exact Hx |].
      rewrite lookup_insert_ne by keys_ne.
      rewrite lookup_insert_ne; [exact Hxid |].
      intros Ek. apply idKey_inj in Ek. apply N.
      rewrite <- Ek, Hc in Hxid. injection Hxid as ->.
      rewrite HEmail, Hx. reflexivity.
  - intros id' d Hl.
    rewrite lookup_insert_ne in Hl by keys_ne.
    destruct (decide (idKey id = idKey id')) as [E | N].
    + rewrite E, lookup_insert_eq in Hl. injection Hl as <-.
      exists c'. split; [reflexivity |].
      split; [rewrite HID, Hid0; apply idKey_inj, E |].
      apply lookup_insert_eq.
    + rewrite lookup_insert_ne in Hl by exact N.
      destruct (Hid _ _ Hl) as (x & -> & Hx & Hxem).
      exists x. split; [reflexivity |]. split; [exact Hx |].
      rewrite lookup_insert_ne.
      * rewrite lookup_insert_ne by keys_ne. exact Hxem.
      * intros Ek. apply clientKey_inj in Ek. apply N.
        rewrite <- Ek, HEmail, Hback in Hxem. injection Hxem as <-.
        rewrite Hid0 in Hx. rewrite Hx. reflexivity.
Qed.

Lemma viewsConsistent_create (s : gmap string Doc) (email ekey : string)
    (c : ClientData) (e : Doc) :
  viewsConsistent s ->
  s !! clientKey email = None ->
  s !! idKey (cd_ID c) = None ->
  cd_Email c = email ->
  viewsConsistent
    (<[envKey ekey := e]>
       (<[idKey (cd_ID c) := DocClient c]>
          (<[clientKey email := DocClient c]> s))).
Proof.
  intros [Hem Hid] Hnone Hfresh HEmail. split.
  - intros email' d Hl.
    rewrite lookup_insert_ne in Hl by keys_ne.
    rewrite lookup_insert_ne in Hl by keys_ne.
    destruct (decide (clientKey email = clientKey email')) as [E | N].
    + rewrite E, lookup_insert_eq in Hl. injection Hl as <-.
      exists c. split; [reflexivity |].
      split; [rewrite HEmail; apply clientKey_inj, E |].
      rewrite lookup_insert_ne by keys_ne.
      apply lookup_insert_eq.
    + rewrite lookup_insert_ne in Hl by exact N.
      destruct (Hem _ _ Hl) as (x & -> & Hx & Hxid).
      exists x. split; [reflexivity |]. split; [exact Hx |].
      rewrite lookup_insert_ne by keys_ne.
      rewrite lookup_insert_ne.
      * rewrite lookup_insert_ne by keys_ne. exact Hxid.
      * intros Ek. apply idKey_inj in Ek. rewrite <- Ek in Hxid. congruence.
  - intros id' d Hl.
    rewrite lookup_insert_ne in Hl by keys_ne.
    destruct (decide (idKey (cd_ID c) = idKey id')) as [E | N].
    + rewrite E, lookup_insert_eq in Hl. injection Hl as <-.
      exists c. split; [reflexivity |].
      split; [apply idKey_inj, E |].
      rewrite lookup_insert_ne by keys_ne.
      rewrite lookup_insert_ne by keys_ne.
      rewrite HEmail. apply lookup_insert_eq.
    + rewrite lookup_insert_ne in Hl by exact N.
      rewrite lookup_insert_ne in Hl by keys_ne.
      destruct (Hid _ _ Hl) as (x & -> & Hx & Hxem).
      exists x. split; [reflexivity |]. split; [exact Hx |].
      rewrite lookup_insert_ne by keys_ne.
      rewrite lookup_insert_ne by keys_ne.
      rewrite lookup_insert_ne; [exact Hxem |].
      intros Ek. apply clientKey_inj in Ek. rewrite <- Ek in Hxem. congruence.
Qed.

End RegistryProperties.
Section ServiceProperties.

Variable hmacSign : string -> string -> string * RegisteredClaims -> string.

(** *** Authenticated handlers *)

Lemma handleConnect_run (tok : TokenString) (b : option unit) (id : string)
    (d : Doc) (w : World) :
  fst (validateToken hmacSign tok w) = Some id ->
  storage w !! idKey id = Some d ->
  let w1 := snd (validateToken hmacSign tok w) in
  let c' := setLastSeen (decodeClient d) (clock w1 (ticks w1)) in
  handleConnect hmacSign (mkAuthRequest (Some tok) b) w =
  (mkResponse StatusOK (ConnectedBody id (cd_Environment (decodeClient d))),
   withStorage
     (<[clientKey (cd_Email c') := DocClient c']>
        (<[idKey id := DocClient c']> (storage w)))
     (snd (timeNow w1))).
Proof.
  intros Hv Hd w1 c'. unfold handleConnect. cbn [Authorization].
  rewrite bind_run, Hv. fold w1.
  assert (Hd1 : storage w1 !! idKey id = Some d).
  { subst w1. rewrite validateToken_storage. exact Hd. }
  rewrite bind_run, getClientInfrastructure_run, Hd1.
  cbn [option_map fst snd].
  rewrite bind_run, (updateClientLastSeen_run _ _ _ Hd1). cbn [fst snd ret].
  assert (Hs : storage w1 = storage w) by apply validateToken_storage.
  subst c'. rewrite Hs. reflexivity.
Qed.

Lemma handleConfig_storage (r : AuthRequest unit) (w : World) :
  storage (snd (handleConfig hmacSign r w)) = storage w.
Proof.
  unfold handleConfig. destruct (Authorization r) as [tok |]; [| reflexivity].
  rewrite bind_run.
  destruct (fst (validateToken hmacSign tok w)) as [id |];
    [| apply validateToken_storage].
  rewrite bind_run, getClientInfrastructure_run. cbn [fst snd].
  destruct (storage (snd (validateToken hmacSign tok w)) !! idKey id);
    apply validateToken_storage.
Qed.

Lemma handleGetInfrastructure_storage (r : AuthRequest unit) (w : World) :
  storage (snd (handleGetInfrastructure hmacSign r w)) = storage w.
Proof.
  unfold handleGetInfrastructure.
  destruct (Authorization r) as [tok |]; [| reflexivity].
  rewrite bind_run.
  destruct (fst (validateToken hmacSign tok w)) as [id |];
    [| apply validateToken_storage].
  rewrite bind_run, getClientInfrastructure_run. cbn [fst snd].
  destruct (storage (snd (validateToken hmacSign tok w)) !! idKey id);
    apply validateToken_storage.
Qed.

Lemma handleConfig_run (tok : TokenString) (b : option unit) (id : string)
    (d : Doc) (w : World) :
  fst (validateToken hmacSign tok w) = Some id ->
  storage w !! idKey id = Some d ->
  handleConfig hmacSign (mkAuthRequest (Some tok) b) w =
  (mkResponse StatusOK
     (ConfigBody
        (mkVPNConfig (env_VPNServer (cd_Environment (decodeClient d)))
                     (env_VPNPort (cd_Environment (decodeClient d)))
                     tok
                     (env_ID (cd_Environment (decodeClient d))))),
   snd (validateToken hmacSign tok w)).
Proof.
  intros Hv Hd. unfold handleConfig. cbn [Authorization].
  rewrite bind_run, Hv.
  rewrite bind_run, getClientInfrastructure_run, validateToken_storage, Hd.
  reflexivity.
Qed.

Lemma handleInfrastructure_run (tok : TokenString) (m : Infrastructure)
    (id : string) (w : World) :
  fst (validateToken hmacSign tok w) = Some id ->
  handleInfrastructure hmacSign (mkAuthRequest (Some tok) (Some m)) w =
  (mkResponse StatusOK (InfraUpdatedBody "Infrastructure updated" id),
   snd (updateClientInfrastructure id m
          (snd (validateToken hmacSign tok w)))).
Proof.
  intros Hv. unfold handleInfrastructure. cbn [Authorization requestBody].
  rewrite bind_run, Hv. rewrite bind_run. reflexivity.
Qed.

(** C4 (amended): a token issued for [clientID] validates, under the same
    signing key, to [clientID] exactly while the time of validation is
    before its expiry, the second clock reading of the issue plus 24 hours
    cut to whole seconds; from the expiry on validation fails.  When the
    clock did not run backwards between the two readings of the issue, the
    expiry is no earlier than the token's issued_at plus 24 hours. *)
Theorem token_valid_until_expiry (clientID : string) (w w' : World) :
  fst (secret w') = fst (secret w) ->
  let tok := fst (generateToken hmacSign clientID w) in
  let expiry := TruncateSecond (Add (clock w (S (ticks w))) (24 * Hour)) in
  let issuedAt := TruncateSecond (clock w (ticks w)) in
  (clock w' (ticks w') < expiry ->
     fst (validateToken hmacSign tok w') = Some clientID) /\
  (expiry <= clock w' (ticks w') ->
     fst (validateToken hmacSign tok w') = None) /\
  (clock w (ticks w) <= clock w (S (ticks w)) ->
     issuedAt + 24 * Hour <= expiry).
Proof.
  intros Hkey tok expiry issuedAt. subst tok.
  rewrite (validate_generated hmacSign _ _ _ Hkey). fold expiry.
  split; [| split].
  - intros H. destruct (Z.ltb_spec (clock w' (ticks w')) expiry); [reflexivity | lia].
  - intros H. destruct (Z.ltb_spec (clock w' (ticks w')) expiry); [lia | reflexivity].
  - intros H. subst expiry issuedAt.
    unfold TruncateSecond, Add, Hour, Minute, Second in *.
    Z.div_mod_to_equations. lia.
Qed.

(** C6 (amended): for a stored client, replace(id, m) followed by get(id)
    returns [m] with last_updated_at set to the clock reading of the write:
    the four id lists and created_at are those of [m], nothing of the
    previous manifest is kept, and the rest of the aggregate is unchanged.
    The stored last_updated_at is that clock reading, so it moves forward
    whenever the clock reads later than the stored value. *)
Theorem replace_then_get (id : string) (m : Infrastructure) (c : ClientData)
    (w : World) :
  storage w !! idKey id = Some (DocClient c) ->
  let now := clock w (ticks w) in
  let w' := snd (updateClientInfrastructure id m w) in
  fst (getClientInfrastructure id w') =
    Some (setInfrastructure c (setLastUpdated m now)) /\
  option_map cd_Infrastructure (fst (getClientInfrastructure id w')) =
    Some (mkInfrastructure (inf_VPNInstances m) (inf_LoadBalancers m)
                           (inf_Databases m) (inf_Storage m)
                           (inf_Created m) now) /\
  (inf_LastUpdated (cd_Infrastructure c) < now ->
   forall c', fst (getClientInfrastructure id w') = Some c' ->
     inf_LastUpdated (cd_Infrastructure c) <
     inf_LastUpdated (cd_Infrastructure c')).
Proof.
  intros H now w'.
  assert (E : fst (getClientInfrastructure id w') =
              Some (setInfrastructure c (setLastUpdated m now))).
  { subst w'. rewrite (updateClientInfrastructure_run _ _ _ _ H).
    cbn [snd]. rewrite getClientInfrastructure_run, withStorage_storage.
    rewrite lookup_insert_ne by keys_ne. rewrite lookup_insert_eq.
    reflexivity. }
  rewrite E. split; [reflexivity |]. split; [reflexivity |].
  intros Hlt c' Hc'. injection Hc' as <-. exact Hlt.
Qed.

(** C7: the empty store has consistent client views, and getOrCreate (given
    that a freshly drawn client identifier is not in use), touchLastSeen
    and replaceInfrastructure each keep them consistent; after each, the
    by-email and the by-client-id record of the client concerned hold the
    same aggregate. *)
Theorem views_never_diverge :
  viewsConsistent ∅ /\
  (forall email w,
     viewsConsistent (storage w) ->
     storage w !! idKey (uuidSource w (uuidsDrawn w)) = None ->
     let r := getOrCreateClientWithInfrastructure email w in
     viewsConsistent (storage (snd r)) /\
     storage (snd r) !! clientKey email = Some (DocClient (fst r)) /\
     storage (snd r) !! idKey (cd_ID (fst r)) = Some (DocClient (fst r))) /\
  (forall id w,
     viewsConsistent (storage w) ->
     let w' := snd (updateClientLastSeen id w) in
     viewsConsistent (storage w') /\
     forall d, storage w' !! idKey id = Some d ->
       storage w' !! clientKey (cd_Email (decodeClient d)) = Some d) /\
  (forall id m w,
     viewsConsistent (storage w) ->
     let w' := snd (updateClientInfrastructure id m w) in
     viewsConsistent (storage w') /\
     forall d, storage w' !! idKey id = Some d ->
       storage w' !! clientKey (cd_Email (decodeClient d)) = Some d).
Proof.
  assert (Hview : forall s id d, viewsConsistent s -> s !! idKey id = Some d ->
            s !! clientKey (cd_Email (decodeClient d)) = Some d).
  { intros s id d [_ Hid] Hd. destruct (Hid _ _ Hd) as (c & -> & _ & Hc).
    exact Hc. }
  split; [apply viewsConsistent_empty |]. split; [| split].
  - intros email w Hvc Hfresh r. subst r.
    destruct (storage w !! clientKey email) as [d |] eqn:H.
    + rewrite (getOrCreate_existing _ _ _ H). cbn [fst snd].
      split; [exact Hvc |].
      destruct (proj1 Hvc _ _ H) as (c & -> & _ & Hc). cbn [decodeClient].
      split; [exact H | exact Hc].
    + destruct (getOrCreate_new _ _ H) as (Hs & HID & HEmail).
      rewrite Hs. split.
      * apply viewsConsistent_create; try assumption.
        rewrite HID. exact Hfresh.
      * split.
        -- rewrite !lookup_insert_ne by keys_ne. apply lookup_insert_eq.
        -- rewrite lookup_insert_ne by keys_ne. apply lookup_insert_eq.
  - intros id w Hvc w'.
    assert (Hvc' : viewsConsistent (storage w')).
    { subst w'. destruct (storage w !! idKey id) as [d |] eqn:H.
      - rewrite (updateClientLastSeen_run _ _ _ H). cbn [snd].
        rewrite withStorage_storage.
        destruct (proj2 Hvc _ _ H) as (c & -> & _ & _). cbn [decodeClient].
        apply (viewsConsistent_rewrite _ _ c); [exact Hvc | exact H | |];
          reflexivity.
      - rewrite (updateClientLastSeen_missing _ _ H). exact Hvc. }
    split; [exact Hvc' |]. intros d Hd. apply (Hview _ id); assumption.
  - intros id m w Hvc w'.
    assert (Hvc' : viewsConsistent (storage w')).
    { subst w'. destruct (storage w !! idKey id) as [d |] eqn:H.
      - rewrite (updateClientInfrastructure_run _ _ _ _ H). cbn [snd].
        rewrite withStorage_storage.
        destruct (proj2 Hvc _ _ H) as (c & -> & _ & _). cbn [decodeClient].
        apply (viewsConsistent_rewrite _ _ c); [exact Hvc | exact H | |];
          reflexivity.
      - rewrite (updateClientInfrastructure_missing _ _ _ H). exact Hvc. }
    split; [exact Hvc' |]. intros d Hd. apply (Hview _ id); assumption.
Qed.

(** C8 (amended): a /connect request whose token validates to the
    identifier of a stored client sets that client's last_seen_at, in both
    views, to the clock reading taken by the update.  GET /config and
    GET /infrastructure write nothing to the store, and POST /infrastructure
    keeps the stored last_seen_at. *)
Theorem last_seen_set_by_connect_only :
  (forall tok b id c w,
     fst (validateToken hmacSign tok w) = Some id ->
     storage w !! idKey id = Some (DocClient c) ->
     let w1 := snd (validateToken hmacSign tok w) in
     let r := handleConnect hmacSign (mkAuthRequest (Some tok) b) w in
     status (fst r) = StatusOK /\
     storage (snd r) !! idKey id =
       Some (DocClient (setLastSeen c (clock w1 (ticks w1)))) /\
     storage (snd r) !! clientKey (cd_Email c) =
       Some (DocClient (setLastSeen c (clock w1 (ticks w1))))) /\
  (forall r w, storage (snd (handleConfig hmacSign r w)) = storage w) /\
  (forall r w,
     storage (snd (handleGetInfrastructure hmacSign r w)) = storage w) /\
  (forall tok m id c w,
     fst (validateToken hmacSign tok w) = Some id ->
     storage w !! idKey id = Some (DocClient c) ->
     let r := handleInfrastructure hmacSign
                (mkAuthRequest (Some tok) (Some m)) w in
     exists c', storage (snd r) !! idKey id = Some (DocClient c') /\
                cd_LastSeen c' = cd_LastSeen c).
Proof.
  split; [| split; [| split]].
  - intros tok b id c w Hv Hc w1 r. subst r.
    rewrite (handleConnect_run _ _ _ _ _ Hv Hc). cbn [fst snd status].
    rewrite withStorage_storage. cbn [decodeClient]. fold w1.
    split; [reflexivity |]. split.
    + rewrite lookup_insert_ne by keys_ne. apply lookup_insert_eq.
    + apply lookup_insert_eq.
  - apply handleConfig_storage.
  - apply handleGetInfrastructure_storage.
  - intros tok m id c w Hv Hc r. subst r.
    rewrite (handleInfrastructure_run _ _ _ _ Hv). cbn [snd].
    assert (Hc1 : storage (snd (validateToken hmacSign tok w)) !! idKey id
                  = Some (DocClient c))
      by (rewrite validateToken_storage; exact Hc).
    rewrite (updateClientInfrastructure_run _ _ _ _ Hc1). cbn [snd].
    rewrite withStorage_storage. eexists. split.
    + rewrite lookup_insert_ne by keys_ne. apply lookup_insert_eq.
    + reflexivity.
Qed.

End ServiceProperties.
(** ** Closed instances and counterexamples *)

Ltac by_evaluation :=
  vm_compute; repeat split; try reflexivity; try discriminate; try congruence.

Lemma generateOTP_six_digits_not_uniform_witness :
  100000 <= 123456 < 1000000 /\
  otpOfValue 123456 = code6 123456 /\ otpOfValue (10 * 123456) = code6 123456.
Proof.
  assert (H : 100000 <= 123456 < 1000000) by lia.
  split; [exact H |].
  exact (proj2 (proj2 generateOTP_six_digits_not_uniform) 123456 H).
Defined.

Lemma verify_succeeds_once_witness :
  let w := exampleWorld exampleOTPStore (fun _ => 10 * Second) in
  let req := Some (mkOTPVerify "a@x.com" "123456") in
  storage w !! otpKey "a@x.com" = Some (DocOTP exampleOTP) /\
  Unix (clock w (ticks w)) <= otp_expires exampleOTP /\
  storage (snd (handleVerify exampleHmac req w)) !! otpKey "a@x.com" = None /\
  fst (handleVerify exampleHmac req (snd (handleVerify exampleHmac req w))) =
    VerifyNotFound.
Proof.
  intros w req.
  assert (H1 : storage w !! otpKey "a@x.com" = Some (DocOTP exampleOTP))
    by (vm_compute; reflexivity).
  assert (H2 : Unix (clock w (ticks w)) <= otp_expires exampleOTP)
    by (vm_compute; discriminate).
  split; [exact H1 |]. split; [exact H2 |].
  pose proof (verify_succeeds_once exampleHmac "a@x.com" exampleOTP w H1 H2)
    as (_ & Hgone & Hnf & _).
  split; [exact Hgone | exact Hnf].
Defined.

Lemma getOrCreate_twice_witness :
  let w := exampleWorld exampleStore (fun _ => 10 * Second) in
  getOrCreateClientWithInfrastructure "a@x.com" w = (exampleClient, w).
Proof.
  intros w.
  assert (H : storage w !! clientKey "a@x.com" = Some (DocClient exampleClient))
    by (vm_compute; reflexivity).
  exact (proj1 (proj2 (getOrCreate_twice "a@x.com" w)) _ H).
Defined.

Lemma verify_mismatch_leaves_store_witness :
  let w := exampleWorld exampleOTPStore (fun _ => 1000 * Second) in
  snd (handleVerify exampleHmac (Some (mkOTPVerify "a@x.com" "000000")) w) = w.
Proof.
  intros w.
  assert (H1 : storage w !! otpKey "a@x.com" = Some (DocOTP exampleOTP))
    by (vm_compute; reflexivity).
  assert (H2 : otp_code exampleOTP <> "000000"%string)
    by (vm_compute; discriminate).
  exact (proj1 (proj2
    (verify_mismatch_leaves_store exampleHmac "a@x.com" "000000" exampleOTP w
       H1 H2))).
Defined.



Lemma attempts_issued_zero_never_updated_never_gate_witness :
  exists a,
    fst (handleVerify exampleHmac (Some (mkOTPVerify "a@x.com" "123456"))
           (verifyAttempts exampleHmac "a@x.com" ["000000"; "654321"]%string
              (exampleWorld exampleOTPStore (fun _ => 10 * Second)))) =
    VerifyOK a.
Proof.
  apply (proj2 (proj2 (attempts_issued_zero_never_updated_never_gate exampleHmac))
           "a@x.com"%string exampleOTP).
  - vm_compute; reflexivity.
  - repeat constructor; vm_compute; discriminate.
  - vm_compute; discriminate.
Defined.

Lemma wrong_attempt_keeps_count_counterexample :
  let w0 := exampleWorld ∅ (fun _ => 10 * Second) in
  let w1 := snd (handleRegister (Some (mkOTPRequest "a@x.com")) w0) in
  let r := handleVerify exampleHmac (Some (mkOTPVerify "a@x.com" "111111")) w1 in
  storage w1 !! otpKey "a@x.com" = Some (DocOTP (mkOTPData "000000" 310 0)) /\
  fst r = VerifyMismatch /\
  storage (snd r) !! otpKey "a@x.com" = Some (DocOTP (mkOTPData "000000" 310 0)).
Proof. by_evaluation. Qed.

Lemma token_valid_until_expiry_witness :
  let w := exampleWorld ∅ (fun _ => 50 * Second) in
  let w' := exampleWorld ∅ (fun _ => 3600 * Second) in
  fst (validateToken exampleHmac (fst (generateToken exampleHmac "c1" w)) w') =
  Some "c1"%string.
Proof.
  intros w w'.
  assert (Hkey : fst (secret w') = fst (secret w)) by reflexivity.
  apply (proj1 (token_valid_until_expiry exampleHmac "c1" w w' Hkey)).
  vm_compute; reflexivity.
Defined.

Lemma token_expiry_counterexample :
  (let w := exampleWorld ∅
              (fun n => match n with O => 999999999 | _ => 1000000000 end) in
   let tok := fst (generateToken exampleHmac "c1" w) in
   let w' := exampleWorld ∅ (fun _ => 86400 * Second + 500000000) in
   match tok with
   | Compact _ c _ => IssuedAt c = Some 0
   | Malformed _ => False
   end /\
   clock w' (ticks w') > 0 + 24 * Hour /\
   fst (validateToken exampleHmac tok w') = Some "c1"%string) /\
  (let w := exampleWorld ∅ (fun _ => 0) in
   let tok := fst (generateToken exampleHmac "c1" w) in
   let w' := exampleWorld ∅ (fun _ => 24 * Hour) in
   match tok with
   | Compact _ c _ => IssuedAt c = Some 0
   | Malformed _ => False
   end /\
   clock w' (ticks w') <= 0 + 24 * Hour /\
   fst (validateToken exampleHmac tok w') = None).
Proof. by_evaluation. Qed.

Lemma replace_then_get_witness :
  let w := exampleWorld exampleStore (fun _ => 200 * Second) in
  let m := mkInfrastructure ["vpn-2"] ["lb-1"] [] [] 0 (5 * Second) in
  option_map cd_Infrastructure
    (fst (getClientInfrastructure "c1"
            (snd (updateClientInfrastructure "c1" m w)))) =
  Some (mkInfrastructure ["vpn-2"] ["lb-1"] [] [] 0 (200 * Second)).
Proof.
  intros w m.
  assert (H : storage w !! idKey "c1" = Some (DocClient exampleClient))
    by (vm_compute; reflexivity).
  exact (proj1 (proj2 (replace_then_get "c1" m exampleClient w H))).
Defined.

Lemma replace_get_counterexample :
  let w := exampleWorld exampleStore (fun _ => 100 * Second) in
  let m := mkInfrastructure ["vpn-2"] ["lb-1"] [] [] 0 (5 * Second) in
  let before := option_map cd_Infrastructure
                  (fst (getClientInfrastructure "c1" w)) in
  let after := option_map cd_Infrastructure
                 (fst (getClientInfrastructure "c1"
                         (snd (updateClientInfrastructure "c1" m w)))) in
  after <> Some m /\
  after = Some (setLastUpdated m (100 * Second)) /\
  option_map inf_LastUpdated before = Some (100 * Second) /\
  option_map inf_LastUpdated after = Some (100 * Second).
Proof. by_evaluation. Qed.

Lemma views_never_diverge_witness :
  let r := getOrCreateClientWithInfrastructure "a@x.com"
             (exampleWorld ∅ (fun _ => 10 * Second)) in
  storage (snd r) !! clientKey "a@x.com" = Some (DocClient (fst r)) /\
  storage (snd r) !! idKey (cd_ID (fst r)) = Some (DocClient (fst r)).
Proof.
  intros r.
  refine (proj2 (proj1 (proj2 views_never_diverge) "a@x.com"%string
                   (exampleWorld ∅ (fun _ => 10 * Second)) _ _)).
  - exact (proj1 views_never_diverge).
  - vm_compute; reflexivity.
Defined.

Lemma last_seen_set_by_connect_only_witness :
  let w0 := exampleWorld exampleStore (fun _ => 50 * Second) in
  let tok := fst (generateToken exampleHmac "c1" w0) in
  let w := snd (generateToken exampleHmac "c1" w0) in
  storage (snd (handleConnect exampleHmac (mkAuthRequest (Some tok) None) w))
    !! idKey "c1" =
  Some (DocClient (setLastSeen exampleClient (50 * Second))).
Proof.
  intros w0 tok w.
  assert (Hv : fst (validateToken exampleHmac tok w) = Some "c1"%string)
    by (vm_compute; reflexivity).
  assert (Hc : storage w !! idKey "c1" = Some (DocClient exampleClient))
    by (vm_compute; reflexivity).
  exact (proj1 (proj2
    (proj1 (last_seen_set_by_connect_only exampleHmac)
       tok None "c1"%string exampleClient w Hv Hc))).
Defined.

Lemma config_keeps_last_seen_counterexample :
  let w0 := exampleWorld exampleStore (fun _ => 50 * Second) in
  let tok := fst (generateToken exampleHmac "c1" w0) in
  let w := snd (generateToken exampleHmac "c1" w0) in
  let r := handleConfig exampleHmac (mkAuthRequest (Some tok) None) w in
  status (fst r) = StatusOK /\
  clock w (ticks w) = 50 * Second /\
  option_map (fun d => cd_LastSeen (decodeClient d))
    (storage (snd r) !! idKey "c1") = Some 0 /\
  option_map (fun d => cd_LastSeen (decodeClient d))
    (storage (snd r) !! clientKey "a@x.com") = Some 0.
Proof. by_evaluation. Qed.
(** ** Further properties of the code *)

(** *** Storage, key layout, OTP codes *)

(** X1: the in-memory storage contract: a Get after a Put returns the value
    put, the last Put wins, a Get after a Delete is not found, deleting an
    absent key changes nothing, and a Put or Delete on one key leaves the
    Get of every other key as it was. *)
Theorem storage_contract :
  (forall k v s, Get k (Put k v s) = Some v) /\
  (forall k v v' s, Put k v' (Put k v s) = Put k v' s) /\
  (forall k s, Get k (Delete k s) = None) /\
  (forall k s, Get k s = None -> Delete k s = s) /\
  (forall k k' v s, k <> k' -> Get k' (Put k v s) = Get k' s) /\
  (forall k k' s, k <> k' -> Get k' (Delete k s) = Get k' s).
Proof.
  unfold Get, Put, Delete. repeat split; intros.
  - apply lookup_insert_eq.
  - apply insert_insert_eq.
  - apply lookup_delete_eq.
  - apply delete_id. assumption.
  - apply lookup_insert_ne. assumption.
  - apply lookup_delete_ne. assumption.
Qed.

Lemma storage_contract_witness :
  Get "b" (Put "a" (DocRaw "x") (Put "b" (DocRaw "y") ∅)) = Some (DocRaw "y") /\
  Delete "a" (Put "b" (DocRaw "y") ∅) = Put "b" (DocRaw "y") ∅.
Proof.
  split.
  - rewrite (proj1 (proj2 (proj2 (proj2 (proj2 storage_contract))))
               "a"%string "b"%string)
      by (vm_compute; discriminate).
    vm_compute; reflexivity.
  - apply (proj1 (proj2 (proj2 (proj2 storage_contract)))).
    vm_compute; reflexivity.
Defined.

(** X2: the persisted key layout is free of collisions: keys of two
    different kinds never coincide, whatever the email or identifier, and
    within one kind different names give different keys. *)
Theorem key_layout_collision_free (a b : string) :
  otpKey a <> clientKey b /\ otpKey a <> idKey b /\ otpKey a <> envKey b /\
  clientKey a <> idKey b /\ clientKey a <> envKey b /\ idKey a <> envKey b /\
  (a <> b ->
   otpKey a <> otpKey b /\ clientKey a <> clientKey b /\
   idKey a <> idKey b /\ envKey a <> envKey b).
Proof.
  repeat split; try keys_ne.
  all: intros E; apply H.
  - apply otpKey_inj, E.
  - apply clientKey_inj, E.
  - apply idKey_inj, E.
  - unfold envKey in E; cbv in E; congruence.
Qed.

Lemma key_layout_collision_free_witness :
  clientKey "_id:x" <> clientKey "x" /\ idKey "c1" <> idKey "c2".
Proof.
  assert (H1 : "_id:x"%string <> "x"%string) by discriminate.
  assert (H2 : "c1"%string <> "c2"%string) by discriminate.
  destruct (key_layout_collision_free "_id:x" "x") as (_ & _ & _ & _ & _ & _ & K1).
  destruct (key_layout_collision_free "c1" "c2") as (_ & _ & _ & _ & _ & _ & K2).
  split; [exact (proj1 (proj2 (K1 H1))) | exact (proj1 (proj2 (proj2 (K2 H2))))].
Defined.

Lemma byte_of_value (n : Z) : 0 <= n < 256 -> exists b : byte, byteVal b = n.
Proof.
  intros Hn. destruct (Byte.of_N (Z.to_N n)) as [b |] eqn:E.
  - exists b. unfold byteVal. apply Byte.to_of_N in E. rewrite E. lia.
  - apply Byte.of_N_None_iff in E. lia.
Qed.

(** X3: no code is left out: every six-digit code from 000000 to 999999 is
    produced by some triple of random bytes. *)
Theorem generateOTP_reaches_every_code (c : Z) :
  0 <= c < 1000000 ->
  exists b0 b1 b2 : byte, generateOTP_from b0 b1 b2 = code6 c.
Proof.
  intros Hc.
  destruct (byte_of_value (c / 65536)) as [b0 H0];
    [Z.div_mod_to_equations; lia |].
  destruct (byte_of_value (c / 256 mod 256)) as [b1 H1];
    [Z.div_mod_to_equations; lia |].
  destruct (byte_of_value (c mod 256)) as [b2 H2];
    [Z.div_mod_to_equations; lia |].
  exists b0, b1, b2. unfold generateOTP_from.
  assert (E : otpValue b0 b1 b2 = c).
  { rewrite otpValue_sum, H0, H1, H2. Z.div_mod_to_equations. lia. }
  rewrite E, generateOTP_value by lia. f_equal.
  destruct (otpNumber_cases c) as [[_ ->] | [[? _] | [? _]]]; [reflexivity | lia | lia].
Qed.

Lemma generateOTP_reaches_every_code_witness :
  exists b0 b1 b2 : byte, generateOTP_from b0 b1 b2 = code6 7.
Proof. apply generateOTP_reaches_every_code. lia. Defined.
(** *** Issuing and redeeming codes *)

Lemma generateOTP_run (w : World) :
  generateOTP w =
  (generateOTP_from (randSource w (randDrawn w))
                    (randSource w (S (randDrawn w)))
                    (randSource w (S (S (randDrawn w)))),
   mkWorld (storage w) (clock w) (ticks w) (uuidSource w) (uuidsDrawn w)
           (randSource w) (S (S (S (randDrawn w)))) (environ w)).
Proof. unfold generateOTP. run. reflexivity. Qed.

Lemma Unix_five_minutes (t : Time) : Unix (Add t (5 * Minute)) = Unix t + 300.
Proof.
  unfold Unix, Add, Minute, Second. Z.div_mod_to_equations. lia.
Qed.

Lemma handleRegister_record (email : string) (w : World) :
  email <> ""%string ->
  handleRegister (Some (mkOTPRequest email)) w =
  (mkResponse StatusOK (MessageBody "OTP sent to email"),
   withStorage
     (<[otpKey email :=
          DocOTP (mkOTPData (fst (generateOTP w))
                            (Unix (clock w (ticks w)) + 300) 0)]> (storage w))
     (snd (timeNow (snd (generateOTP w))))).
Proof.
  intros Hne. rewrite (handleRegister_stores _ _ Hne).
  rewrite Unix_five_minutes, generateOTP_run. reflexivity.
Qed.

(** X4: handleRegister answers 200 exactly when the body decodes and names
    a non-empty email; otherwise it answers 400 and leaves the world, the
    store included, untouched. *)
Theorem register_accepts_iff_email (body : option OTPRequest) (w : World) :
  let r := handleRegister body w in
  (status (fst r) = StatusOK <->
   exists req, body = Some req /\ req_Email req <> ""%string) /\
  (status (fst r) <> StatusOK ->
   status (fst r) = StatusBadRequest /\ snd r = w).
Proof.
  intros r. subst r. destruct body as [[email] |].
  - destruct (String.eqb_spec email "") as [-> | Hne].
    + unfold handleRegister. cbn [req_Email]. rewrite String.eqb_refl.
      cbn [ret fst snd httpError status]. split.
      * split; [discriminate |].
        intros (req & E & Hn). injection E as <-. cbn in Hn. congruence.
      * intros _. split; reflexivity.
    + rewrite (handleRegister_record _ _ Hne). cbn [fst snd status]. split.
      * split; [| reflexivity]. intros _. eexists. split; [reflexivity |].
        exact Hne.
      * intros H. congruence.
  - unfold handleRegister. cbn [ret fst snd httpError status]. split.
    + split; [discriminate |]. intros (req & E & _). discriminate.
    + intros _. split; reflexivity.
Qed.

Lemma register_accepts_iff_email_witness :
  let w := exampleWorld exampleOTPStore (fun _ => 10 * Second) in
  snd (handleRegister (Some (mkOTPRequest "")) w) = w.
Proof.
  intros w.
  apply (proj2 (register_accepts_iff_email (Some (mkOTPRequest "")) w)).
  vm_compute; discriminate.
Defined.

(** X5: an accepted registration stores, under otp:<email>, a record with
    the six-digit code drawn from the next three random bytes, an expiry
    of the current Unix second plus 300 and an attempt count of 0,
    replacing whatever record was there; every other key of the store
    keeps its value. *)
Theorem register_stores_record (email : string) (w : World) :
  email <> ""%string ->
  let w' := snd (handleRegister (Some (mkOTPRequest email)) w) in
  let code := generateOTP_from (randSource w (randDrawn w))
                               (randSource w (S (randDrawn w)))
                               (randSource w (S (S (randDrawn w)))) in
  storage w' !! otpKey email =
    Some (DocOTP (mkOTPData code (Unix (clock w (ticks w)) + 300) 0)) /\
  String.length code = 6%nat /\ allDigits code /\
  (forall k, k <> otpKey email -> storage w' !! k = storage w !! k).
Proof.
  intros Hne w' code. subst w'.
  rewrite (handleRegister_record _ _ Hne). cbn [snd].
  rewrite withStorage_storage, generateOTP_run. cbn [fst]. fold code.
  split; [apply lookup_insert_eq |].
  assert (Hcode : code = code6 (otpNumber (otpValue
            (randSource w (randDrawn w)) (randSource w (S (randDrawn w)))
            (randSource w (S (S (randDrawn w))))))).
  { subst code. unfold generateOTP_from.
    apply generateOTP_value, otpValue_range. }
  split; [rewrite Hcode; apply code6_length |].
  split; [rewrite Hcode; apply code6_allDigits |].
  intros k Hk. apply lookup_insert_ne. congruence.
Qed.

Lemma register_stores_record_witness :
  let w := exampleWorld exampleStore (fun _ => 10 * Second) in
  storage (snd (handleRegister (Some (mkOTPRequest "a@x.com")) w))
    !! otpKey "a@x.com" =
  Some (DocOTP (mkOTPData (generateOTP_from x00 x00 x00) 310 0)).
Proof.
  intros w.
  assert (H : "a@x.com"%string <> ""%string) by discriminate.
  exact (proj1 (register_stores_record "a@x.com" w H)).
Defined.

Section IssueRedeem.

Variable hmacSign : string -> string -> string * RegisteredClaims -> string.

(** The outcome of handleVerify, case by case. *)
Lemma handleVerify_cases (email candidate : string) (w : World) :
  let r := handleVerify hmacSign (Some (mkOTPVerify email candidate)) w in
  (storage w !! otpKey email = None /\ r = (VerifyNotFound, w)) \/
  (exists raw, storage w !! otpKey email = Some (DocRaw raw) /\
               r = (VerifyUnreadable, w)) \/
  (exists d, storage w !! otpKey email = Some d /\
             (forall rec, d = DocOTP rec -> otp_code rec <> candidate) /\
             (forall raw, d <> DocRaw raw) /\
             r = (VerifyMismatch, w)) \/
  (exists rec, storage w !! otpKey email = Some (DocOTP rec) /\
               otp_code rec = candidate /\
               Unix (clock w (ticks w)) > otp_expires rec /\
               fst r = VerifyExpired /\
               storage (snd r) = delete (otpKey email) (storage w)) \/
  (exists rec a, storage w !! otpKey email = Some (DocOTP rec) /\
               otp_code rec = candidate /\
               Unix (clock w (ticks w)) <= otp_expires rec /\
               fst r = VerifyOK a /\
               storage (snd r) !! otpKey email = None).
Proof.
  intros r. subst r.
  destruct (storage w !! otpKey email) as [d |] eqn:H.
  2:{ left. split; [reflexivity |]. apply handleVerify_not_found, H. }
  right.
  assert (Hother : forall d', storage w !! otpKey email = Some d' ->
            (forall rec, d' <> DocOTP rec) ->
            (forall raw, d' <> DocRaw raw) ->
            handleVerify hmacSign (Some (mkOTPVerify email candidate)) w =
            (VerifyMismatch, w)).
  { intros d' Hd' Hn1 Hn2. unfold handleVerify. cbn [ver_Email ver_OTP].
    rewrite bind_run. unfold storageGet, Get. cbn [fst snd]. rewrite Hd'.
    destruct d'; try reflexivity.
    - exfalso. exact (Hn1 _ eq_refl).
    - exfalso. exact (Hn2 _ eq_refl). }
  destruct d as [rec | c | en | raw].
  - destruct (String.eqb_spec (otp_code rec) candidate) as [E | Hne].
    + right. right. subst candidate.
      destruct (Z.gtb_spec (Unix (clock w (ticks w))) (otp_expires rec))
        as [Hx | Hx].
      * left. exists rec.
        rewrite (handleVerify_expired hmacSign _ _ _ H) by lia.
        cbn [fst snd]. rewrite withStorage_storage.
        repeat split; try reflexivity. lia.
      * right. exists rec. eexists.
        rewrite (handleVerify_ok hmacSign _ _ _ H Hx). cbn [fst snd].
        rewrite withStorage_storage.
        repeat split; try reflexivity; [assumption | apply lookup_delete_eq].
    + right. left. exists (DocOTP rec). split; [reflexivity |].
      split; [intros rec' E; injection E as <-; exact Hne |].
      split; [discriminate |].
      apply (handleVerify_mismatch hmacSign _ _ _ _ H Hne).
  - right. left. exists (DocClient c). split; [reflexivity |].
    split; [discriminate |]. split; [discriminate |].
    apply (Hother _ H); discriminate.
  - right. left. exists (DocEnv en). split; [reflexivity |].
    split; [discriminate |]. split; [discriminate |].
    apply (Hother _ H); discriminate.
  - left. exists raw. split; [reflexivity |].
    unfold handleVerify. cbn [ver_Email ver_OTP].
    rewrite bind_run. unfold storageGet, Get. cbn [fst snd]. rewrite H.
    reflexivity.
Qed.

(** X6: verification succeeds only for the right code: a 200 answer means
    that an OTP record was stored for the email, that its code is exactly
    the candidate and that it had not expired; the record is gone
    afterwards. *)
Theorem verify_success_needs_stored_code
    (body : option OTPVerify) (a : AuthResponse) (w : World) :
  fst (handleVerify hmacSign body w) = VerifyOK a ->
  exists email rec,
    body = Some (mkOTPVerify email (otp_code rec)) /\
    storage w !! otpKey email = Some (DocOTP rec) /\
    Unix (clock w (ticks w)) <= otp_expires rec /\
    storage (snd (handleVerify hmacSign body w)) !! otpKey email = None.
Proof.
  intros Hok. destruct body as [[email candidate] |]; [| discriminate Hok].
  destruct (handleVerify_cases email candidate w)
    as [[_ E] | [(raw & _ & E) | [(d & _ & _ & _ & E) |
        [(rec & _ & _ & _ & E & _) | (rec & a' & Hrec & Hcode & Hexp & _ & Hgone)]]]].
  1,2,3: rewrite E in Hok; discriminate Hok.
  - rewrite E in Hok. discriminate Hok.
  - exists email, rec. subst candidate. repeat split; assumption.
Qed.

(** X7: a verification that fails for any reason other than expiry (body
    not decodable, no record, record unreadable, code mismatch) leaves
    the world untouched, and every failure is answered with status 400. *)
Theorem verify_failure_is_harmless (body : option OTPVerify) (w : World) :
  let r := handleVerify hmacSign body w in
  (forall a, fst r <> VerifyOK a) ->
  status (verifyResponse (fst r)) = StatusBadRequest /\
  (fst r <> VerifyExpired -> snd r = w).
Proof.
  intros r Hfail. subst r. destruct body as [[email candidate] |].
  2:{ split; [reflexivity | intros _; reflexivity]. }
  destruct (handleVerify_cases email candidate w)
    as [[_ E] | [(raw & _ & E) | [(d & _ & _ & _ & E) |
        [(rec & _ & _ & _ & E & _) | (rec & a' & _ & _ & _ & E & _)]]]].
  1,2,3: rewrite E; split; [reflexivity | intros _; reflexivity].
  - rewrite E. split; [reflexivity | congruence].
  - exfalso. apply (Hfail a'), E.
Qed.

(** X8: a registered code can be redeemed within five minutes: with the
    record of a registration still in the store, verifying with the
    issued code succeeds while the Unix second of the verification is at
    most that of the registration plus 300, and is answered Expired
    after that. *)
Theorem register_then_verify (email : string) (w w2 : World) :
  email <> ""%string ->
  let w1 := snd (handleRegister (Some (mkOTPRequest email)) w) in
  let code := fst (generateOTP w) in
  storage w2 !! otpKey email = storage w1 !! otpKey email ->
  let r := handleVerify hmacSign (Some (mkOTPVerify email code)) w2 in
  (Unix (clock w2 (ticks w2)) <= Unix (clock w (ticks w)) + 300 ->
   exists a, fst r = VerifyOK a) /\
  (Unix (clock w2 (ticks w2)) > Unix (clock w (ticks w)) + 300 ->
   fst r = VerifyExpired).
Proof.
  intros Hne w1 code Hsame r. subst r.
  assert (Hrec : storage w2 !! otpKey email =
            Some (DocOTP (mkOTPData code (Unix (clock w (ticks w)) + 300) 0))).
  { rewrite Hsame. subst w1. rewrite (handleRegister_record _ _ Hne).
    cbn [snd]. rewrite withStorage_storage. apply lookup_insert_eq. }
  split; intros Ht.
  - pose proof (handleVerify_ok hmacSign _ _ _ Hrec Ht) as E.
    cbn [otp_code] in E. rewrite E. cbn [fst]. eexists. reflexivity.
  - pose proof (handleVerify_expired hmacSign _ _ _ Hrec Ht) as E.
    cbn [otp_code] in E. rewrite E. reflexivity.
Qed.

(** X9: a new registration replaces the pending code: after registering
    twice, the store holds the second code for the email, and the first
    code, when it differs from the second, is answered as a mismatch. *)
Theorem register_again_replaces_code (email : string) (w : World) :
  email <> ""%string ->
  let w1 := snd (handleRegister (Some (mkOTPRequest email)) w) in
  let w2 := snd (handleRegister (Some (mkOTPRequest email)) w1) in
  let code1 := fst (generateOTP w) in
  let code2 := fst (generateOTP w1) in
  (exists rec, storage w2 !! otpKey email = Some (DocOTP rec) /\
               otp_code rec = code2) /\
  (code1 <> code2 ->
   handleVerify hmacSign (Some (mkOTPVerify email code1)) w2 =
   (VerifyMismatch, w2)).
Proof.
  intros Hne w1 w2 code1 code2.
  assert (Hrec : storage w2 !! otpKey email =
            Some (DocOTP (mkOTPData code2 (Unix (clock w1 (ticks w1)) + 300) 0))).
  { subst w2. rewrite (handleRegister_record _ _ Hne).
    cbn [snd]. rewrite withStorage_storage. apply lookup_insert_eq. }
  split.
  - eexists. split; [exact Hrec | reflexivity].
  - intros Hdiff.
    apply (handleVerify_mismatch hmacSign _ _ _ _ Hrec).
    cbn [otp_code]. congruence.
Qed.

End IssueRedeem.

Lemma verify_success_needs_stored_code_witness :
  let w := exampleWorld exampleOTPStore (fun _ => 10 * Second) in
  let body := Some (mkOTPVerify "a@x.com" "123456") in
  exists email rec,
    body = Some (mkOTPVerify email (otp_code rec)) /\
    storage w !! otpKey email = Some (DocOTP rec) /\
    Unix (clock w (ticks w)) <= otp_expires rec /\
    storage (snd (handleVerify exampleHmac body w)) !! otpKey email = None.
Proof.
  intros w body.
  eapply (verify_success_needs_stored_code exampleHmac body).
  vm_compute. reflexivity.
Defined.

Lemma verify_failure_is_harmless_witness :
  let w := exampleWorld exampleOTPStore (fun _ => 10 * Second) in
  snd (handleVerify exampleHmac (Some (mkOTPVerify "b@x.com" "123456")) w) = w.
Proof.
  intros w.
  apply (verify_failure_is_harmless exampleHmac
           (Some (mkOTPVerify "b@x.com" "123456")) w).
  - intros a. vm_compute. discriminate.
  - vm_compute. discriminate.
Defined.

Lemma register_then_verify_witness :
  let w := exampleWorld ∅ (fun _ => 10 * Second) in
  let w1 := snd (handleRegister (Some (mkOTPRequest "a@x.com")) w) in
  exists a,
    fst (handleVerify exampleHmac
           (Some (mkOTPVerify "a@x.com" (fst (generateOTP w)))) w1) = VerifyOK a.
Proof.
  intros w w1.
  assert (H : "a@x.com"%string <> ""%string) by discriminate.
  apply (proj1 (register_then_verify exampleHmac "a@x.com" w w1 H eq_refl)).
  vm_compute. discriminate.
Defined.

Lemma register_again_replaces_code_witness :
  let w := mkWorld ∅ (fun _ => 10 * Second) 0 (fun _ => "u"%string) 0
             (fun n => match n with 3%nat => x01 | _ => x00 end) 0
             (fun _ => ""%string) in
  let w1 := snd (handleRegister (Some (mkOTPRequest "a@x.com")) w) in
  let w2 := snd (handleRegister (Some (mkOTPRequest "a@x.com")) w1) in
  handleVerify exampleHmac (Some (mkOTPVerify "a@x.com" (fst (generateOTP w)))) w2 =
  (VerifyMismatch, w2).
Proof.
  intros w w1 w2.
  assert (H : "a@x.com"%string <> ""%string) by discriminate.
  apply (proj2 (register_again_replaces_code exampleHmac "a@x.com" w H)).
  vm_compute. discriminate.
Defined.
(** *** The client registry *)

Lemma getOrCreate_new_run (email : string) (w : World) :
  storage w !! clientKey email = None ->
  let id := uuidSource w (uuidsDrawn w) in
  let eid := uuidSource w (S (uuidsDrawn w)) in
  let region := if String.eqb (environ w "REGION") ""
                then "us-east-1"%string else environ w "REGION" in
  let e := mkEnvironment eid id
             ("vpn-" +:+ substring 0 8 id +:+ ".soltar.com")%string
             443 (clock w (ticks w)) "active" region [] [] [] in
  let c := mkClientData id email (clock w (S (S (S (ticks w)))))
             (clock w (S (S (S (S (ticks w))))))
             e (mkInfrastructure [] [] [] [] (clock w (S (ticks w)))
                                 (clock w (S (S (ticks w))))) in
  getOrCreateClientWithInfrastructure email w =
  (c, mkWorld (<[envKey eid := DocEnv e]>
                 (<[idKey id := DocClient c]>
                    (<[clientKey email := DocClient c]> (storage w))))
              (clock w) (S (S (S (S (S (ticks w)))))) (uuidSource w)
              (S (S (uuidsDrawn w))) (randSource w) (randDrawn w) (environ w)).
Proof.
  intros H id eid region e c. unfold getOrCreateClientWithInfrastructure.
  rewrite bind_run. unfold storageGet, Get. cbn [fst snd]. rewrite H.
  run. unfold Put. reflexivity.
Qed.

(** X10: for an email without a client record, getOrCreate builds the
    aggregate from the next two identifiers drawn: the client has the
    first as id and the given email; its environment has the second as
    id, points back to the client, is named vpn-<first 8 characters of the
    client id>.soltar.com, port 443, status active, region from REGION or
    us-east-1, nothing attached; the manifest lists are empty.  The
    aggregate is stored under client:<email> and client_id:<id>, the
    environment under environment:<environment id>, and every other key
    keeps its value. *)
Theorem getOrCreate_provisions (email : string) (w : World) :
  storage w !! clientKey email = None ->
  let r := getOrCreateClientWithInfrastructure email w in
  let c := fst r in
  let e := cd_Environment c in
  let s' := storage (snd r) in
  (cd_ID c = uuidSource w (uuidsDrawn w) /\ cd_Email c = email /\
   env_ID e = uuidSource w (S (uuidsDrawn w)) /\ env_ClientID e = cd_ID c /\
   env_VPNServer e =
     ("vpn-" +:+ substring 0 8 (cd_ID c) +:+ ".soltar.com")%string /\
   env_VPNPort e = 443 /\ env_Status e = "active"%string /\
   env_Region e = (if String.eqb (environ w "REGION") ""
                   then "us-east-1"%string else environ w "REGION") /\
   env_Instances e = [] /\ env_Databases e = [] /\ env_Storage e = [] /\
   inf_VPNInstances (cd_Infrastructure c) = [] /\
   inf_LoadBalancers (cd_Infrastructure c) = [] /\
   inf_Databases (cd_Infrastructure c) = [] /\
   inf_Storage (cd_Infrastructure c) = []) /\
  (s' !! clientKey email = Some (DocClient c) /\
   s' !! idKey (cd_ID c) = Some (DocClient c) /\
   s' !! envKey (env_ID e) = Some (DocEnv e)) /\
  (forall k, k <> clientKey email -> k <> idKey (cd_ID c) ->
             k <> envKey (env_ID e) -> s' !! k = storage w !! k) /\
  uuidsDrawn (snd r) = S (S (uuidsDrawn w)).
Proof.
  intros H r c e s'. subst s' e c r.
  rewrite (getOrCreate_new_run _ _ H).
  cbn [fst snd storage uuidsDrawn cd_ID cd_Email cd_Environment
       cd_Infrastructure env_ID env_ClientID env_VPNServer env_VPNPort
       env_Status env_Region env_Instances env_Databases env_Storage
       inf_VPNInstances inf_LoadBalancers inf_Databases inf_Storage].
  split; [repeat split |]. split; [| split; [| reflexivity]].
  - split; [| split].
    + rewrite !lookup_insert_ne by keys_ne. apply lookup_insert_eq.
    + rewrite lookup_insert_ne by keys_ne. apply lookup_insert_eq.
    + apply lookup_insert_eq.
  - intros k K1 K2 K3.
    rewrite !lookup_insert_ne by congruence. reflexivity.
Qed.

Lemma getOrCreate_provisions_witness :
  let r := getOrCreateClientWithInfrastructure "a@x.com"
             (exampleWorld ∅ (fun _ => 10 * Second)) in
  env_VPNServer (cd_Environment (fst r)) =
  ("vpn-" +:+ substring 0 8 (cd_ID (fst r)) +:+ ".soltar.com")%string.
Proof.
  intros r.
  assert (H : storage (exampleWorld ∅ (fun _ => 10 * Second))
                !! clientKey "a@x.com" = None) by (vm_compute; reflexivity).
  exact (proj1 (proj2 (proj2 (proj2 (proj2
           (proj1 (getOrCreate_provisions "a@x.com" _ H))))))).
Defined.

Lemma getOrCreate_stored (email : string) (w : World) :
  exists d,
    storage (snd (getOrCreateClientWithInfrastructure email w))
      !! clientKey email = Some d /\
    decodeClient d = fst (getOrCreateClientWithInfrastructure email w).
Proof.
  destruct (storage w !! clientKey email) as [d |] eqn:H.
  - rewrite (getOrCreate_existing _ _ _ H). exists d. split; [exact H | reflexivity].
  - destruct (getOrCreate_new _ _ H) as (Hs & _ & _). eexists. split.
    + rewrite Hs. rewrite !lookup_insert_ne by keys_ne. apply lookup_insert_eq.
    + reflexivity.
Qed.

(** X11: touchLastSeen and replaceInfrastructure do nothing for an unknown
    client identifier; for a stored client they rewrite only the two client
    records, client_id:<id> and client:<email>, every other key of the
    store keeping its value, and touchLastSeen changes no field of the
    aggregate but last_seen_at, which becomes the clock reading. *)
Theorem registry_updates_are_local (id : string) (w : World) :
  (storage w !! idKey id = None ->
   updateClientLastSeen id w = (tt, w) /\
   forall m, updateClientInfrastructure id m w = (tt, w)) /\
  (forall c, storage w !! idKey id = Some (DocClient c) ->
     let w1 := snd (updateClientLastSeen id w) in
     storage w1 !! idKey id =
       Some (DocClient (mkClientData (cd_ID c) (cd_Email c) (cd_Created c)
                          (clock w (ticks w)) (cd_Environment c)
                          (cd_Infrastructure c))) /\
     (forall k, k <> idKey id -> k <> clientKey (cd_Email c) ->
        storage w1 !! k = storage w !! k) /\
     (forall m k, k <> idKey id -> k <> clientKey (cd_Email c) ->
        storage (snd (updateClientInfrastructure id m w)) !! k =
        storage w !! k)).
Proof.
  split.
  - intros H. split.
    + apply updateClientLastSeen_missing, H.
    + intros m. apply updateClientInfrastructure_missing, H.
  - intros c H w1. subst w1.
    rewrite (updateClientLastSeen_run _ _ _ H). cbn [snd decodeClient].
    rewrite withStorage_storage. split; [| split].
    + rewrite lookup_insert_ne by keys_ne. apply lookup_insert_eq.
    + intros k K1 K2. rewrite !lookup_insert_ne; [reflexivity | | ];
        cbn [setLastSeen cd_Email]; congruence.
    + intros m k K1 K2.
      rewrite (updateClientInfrastructure_run _ _ _ _ H). cbn [snd decodeClient].
      rewrite withStorage_storage.
      rewrite !lookup_insert_ne; [reflexivity | | ];
        cbn [setInfrastructure cd_Email]; congruence.
Qed.

Lemma registry_updates_are_local_witness :
  let w := exampleWorld exampleStore (fun _ => 70 * Second) in
  storage (snd (updateClientLastSeen "c1" w)) !! idKey "c1" =
  Some (DocClient (setLastSeen exampleClient (70 * Second))).
Proof.
  intros w.
  assert (H : storage w !! idKey "c1" = Some (DocClient exampleClient))
    by (vm_compute; reflexivity).
  exact (proj1 (proj2 (registry_updates_are_local "c1" w) exampleClient H)).
Defined.

(** *** Tokens and authenticated handlers *)

Section Authentication.

Variable hmacSign : string -> string -> string * RegisteredClaims -> string.

(** X12: validateToken accepts a token only if it is well formed, names a
    method of the HMAC family, carries the HMAC of its header and claims
    under the configured secret as signature, and is not expired or used too
    early at the clock reading of the validation; what it returns is the
    token's subject.  It never writes to the store. *)
Theorem validateToken_sound (t : TokenString) (subject : string) (w : World) :
  fst (validateToken hmacSign t w) = Some subject ->
  (exists alg c,
     t = Compact alg c (hmacSign alg (fst (secret w)) (alg, c)) /\
     isHMACMethod alg = true /\
     Subject c = subject /\
     (forall e, ExpiresAt c = Some e -> clock w (ticks w) < e) /\
     (forall n, NotBefore c = Some n -> n <= clock w (ticks w))) /\
  storage (snd (validateToken hmacSign t w)) = storage w.
Proof.
  intros H. split; [| apply validateToken_storage].
  unfold validateToken in H. rewrite bind_run in H.
  replace (snd (secret w)) with w in H by reflexivity.
  rewrite bind_run in H. unfold ParseWithClaims in H.
  destruct t as [raw | alg c sig]; [discriminate H |].
  destruct (isHMACMethod alg) eqn:Halg; [| discriminate H].
  destruct (String.eqb_spec sig (hmacSign alg (fst (secret w)) (alg, c)))
    as [-> | Hne]; [| discriminate H].
  cbn [andb] in H. rewrite bind_run in H. cbn [timeNow fst snd ret] in H.
  destruct (validateClaims (clock w (ticks w)) c) eqn:Hv; [| discriminate H].
  cbn [fst ret] in H. injection H as <-.
  exists alg, c. repeat split; try assumption.
  - intros e He. unfold validateClaims in Hv. rewrite He in Hv.
    apply andb_prop in Hv. destruct Hv as [Hv _]. apply Z.ltb_lt, Hv.
  - intros n Hn. unfold validateClaims in Hv. rewrite Hn in Hv.
    apply andb_prop in Hv. destruct Hv as [_ Hv].
    apply negb_true_iff, Z.ltb_ge in Hv. exact Hv.
Qed.

(** X13: without a valid token nothing happens: each of the four
    authenticated handlers answers 401 and leaves the store as it was when
    the Authorization header is empty or its token does not validate. *)
Theorem no_token_no_effect (auth : option TokenString) (w : World) :
  (auth = None \/
   exists tok, auth = Some tok /\ fst (validateToken hmacSign tok w) = None) ->
  (forall b,
     let r := handleConnect hmacSign (mkAuthRequest auth b) w in
     status (fst r) = StatusUnauthorized /\ storage (snd r) = storage w) /\
  (forall b,
     let r := handleConfig hmacSign (mkAuthRequest auth b) w in
     status (fst r) = StatusUnauthorized /\ storage (snd r) = storage w) /\
  (forall b,
     let r := handleInfrastructure hmacSign (mkAuthRequest auth b) w in
     status (fst r) = StatusUnauthorized /\ storage (snd r) = storage w) /\
  (forall b,
     let r := handleGetInfrastructure hmacSign (mkAuthRequest auth b) w in
     status (fst r) = StatusUnauthorized /\ storage (snd r) = storage w).
Proof.
  intros [-> | (tok & -> & Hv)].
  - repeat split.
  - unfold handleConnect, handleConfig, handleInfrastructure,
      handleGetInfrastructure. cbn [Authorization].
    repeat split; rewrite bind_run, Hv; cbn [fst snd ret httpError status];
      try reflexivity; apply validateToken_storage.
Qed.

(** X14: a valid token whose subject has no client record: /connect,
    GET /config and GET /infrastructure answer 404, while
    POST /infrastructure with a decodable body still answers 200; in all
    four cases the store is left as it was. *)
Theorem unknown_client_answers (tok : TokenString) (id : string) (w : World) :
  fst (validateToken hmacSign tok w) = Some id ->
  storage w !! idKey id = None ->
  (forall b,
     let r := handleConnect hmacSign (mkAuthRequest (Some tok) b) w in
     status (fst r) = StatusNotFound /\ storage (snd r) = storage w) /\
  (forall b,
     let r := handleConfig hmacSign (mkAuthRequest (Some tok) b) w in
     status (fst r) = StatusNotFound /\ storage (snd r) = storage w) /\
  (forall b,
     let r := handleGetInfrastructure hmacSign (mkAuthRequest (Some tok) b) w in
     status (fst r) = StatusNotFound /\ storage (snd r) = storage w) /\
  (forall m,
     let r := handleInfrastructure hmacSign
                (mkAuthRequest (Some tok) (Some m)) w in
     fst r = mkResponse StatusOK (InfraUpdatedBody "Infrastructure updated" id)
     /\ storage (snd r) = storage w).
Proof.
  intros Hv Hnone.
  assert (H1 : storage (snd (validateToken hmacSign tok w)) !! idKey id = None)
    by (rewrite validateToken_storage; exact Hnone).
  unfold handleConnect, handleConfig, handleGetInfrastructure.
  cbn [Authorization].
  split; [| split; [| split]]; intros b.
  1,2,3: rewrite bind_run, Hv, bind_run, getClientInfrastructure_run, H1;
    cbn [option_map fst snd ret httpError status];
    split; [reflexivity | apply validateToken_storage].
  rewrite (handleInfrastructure_run hmacSign _ _ _ _ Hv). cbn [fst snd].
  rewrite (updateClientInfrastructure_missing _ _ _ H1). cbn [snd].
  split; [reflexivity | apply validateToken_storage].
Qed.

(** X15: POST /infrastructure with a valid token and a body that does not
    decode answers 400 and stores nothing. *)
Theorem infrastructure_bad_body (tok : TokenString) (id : string) (w : World) :
  fst (validateToken hmacSign tok w) = Some id ->
  let r := handleInfrastructure hmacSign (mkAuthRequest (Some tok) None) w in
  fst r = httpError "Invalid request" StatusBadRequest /\
  storage (snd r) = storage w.
Proof.
  intros Hv r. subst r. unfold handleInfrastructure.
  cbn [Authorization requestBody]. rewrite bind_run, Hv. cbn [fst snd ret].
  split; [reflexivity | apply validateToken_storage].
Qed.

End Authentication.
(** *** Signing in *)

Lemma getOrCreate_world (email : string) (w : World) :
  let w' := snd (getOrCreateClientWithInfrastructure email w) in
  clock w' = clock w /\ environ w' = environ w /\ (ticks w <= ticks w')%nat.
Proof.
  intros w'. subst w'. destruct (storage w !! clientKey email) as [d |] eqn:H.
  - rewrite (getOrCreate_existing _ _ _ H). cbn [snd]. repeat split. lia.
  - rewrite (getOrCreate_new_run _ _ H). cbn [snd clock environ ticks].
    repeat split. lia.
Qed.

Lemma getOrCreate_id_record (email : string) (w : World) :
  viewsConsistent (storage w) ->
  let g := getOrCreateClientWithInfrastructure email w in
  storage (snd g) !! idKey (cd_ID (fst g)) = Some (DocClient (fst g)).
Proof.
  intros Hvc g. subst g. destruct (storage w !! clientKey email) as [d |] eqn:H.
  - rewrite (getOrCreate_existing _ _ _ H). cbn [fst snd].
    destruct (proj1 Hvc _ _ H) as (c & -> & _ & Hc). exact Hc.
  - destruct (getOrCreate_new _ _ H) as (Hs & _ & _). rewrite Hs.
    rewrite lookup_insert_ne by keys_ne. apply lookup_insert_eq.
Qed.

Section SignIn.

Variable hmacSign : string -> string -> string * RegisteredClaims -> string.

(** A successful verification, spelled out. *)
Lemma handleVerify_success (body : option OTPVerify) (a : AuthResponse)
    (w : World) :
  fst (handleVerify hmacSign body w) = VerifyOK a ->
  exists email candidate,
    body = Some (mkOTPVerify email candidate) /\
    let g := getOrCreateClientWithInfrastructure email (snd (timeNow w)) in
    let t := generateToken hmacSign (cd_ID (fst g)) (snd g) in
    a = mkAuthResponse (cd_ID (fst g)) (fst t) (cd_Environment (fst g)) /\
    snd (handleVerify hmacSign body w) =
      withStorage (delete (otpKey email) (storage (snd t))) (snd t).
Proof.
  intros Hok. destruct body as [[email candidate] |]; [| discriminate Hok].
  exists email, candidate. split; [reflexivity |].
  destruct (handleVerify_cases hmacSign email candidate w)
    as [[_ E] | [(raw & _ & E) | [(d & _ & _ & _ & E) |
        [(rec & _ & _ & _ & E & _) | (rec & a' & Hrec & Hcode & Hexp & _ & _)]]]].
  1,2,3: rewrite E in Hok; discriminate Hok.
  - rewrite E in Hok. discriminate Hok.
  - subst candidate. intros g t.
    rewrite (handleVerify_ok hmacSign _ _ _ Hrec Hexp) in Hok |- *.
    cbn [fst snd] in *. fold g t in Hok |- *.
    injection Hok as <-. split; reflexivity.
Qed.

Lemma handleVerify_token (body : option OTPVerify)
    (a : AuthResponse) (w : World) :
  fst (handleVerify hmacSign body w) = VerifyOK a ->
  exists e n,
    tokenExpiry (ar_Token a) = Some e /\
    (ticks w < n)%nat /\
    e = TruncateSecond (Add (clock w n) (24 * Hour)) /\
    forall w', fst (secret w') = fst (secret w) ->
      clock w' (ticks w') < e ->
      fst (validateToken hmacSign (ar_Token a) w') = Some (ar_ClientID a).
Proof.
  intros Hok.
  destruct (handleVerify_success _ _ _ Hok) as (email & candidate & _ & Ha & _).
  cbv zeta in Ha. rewrite generateToken_run in Ha. cbn [fst] in Ha.
  destruct (getOrCreate_world email (snd (timeNow w))) as (Hclock & Henv & Hticks).
  set (g := getOrCreateClientWithInfrastructure email (snd (timeNow w))) in *.
  cbn [timeNow snd ticks clock environ] in Hclock, Henv, Hticks.
  exists (TruncateSecond (Add (clock w (S (ticks (snd g)))) (24 * Hour))),
         (S (ticks (snd g))).
  subst a. cbn [ar_Token ar_ClientID tokenExpiry SignedString ExpiresAt
                NewNumericDate].
  rewrite Hclock. split; [reflexivity |]. split; [lia |].
  split; [reflexivity |].
  intros w' Hkey Hnow.
  assert (Hsec : fst (secret (snd g)) = fst (secret w')).
  { rewrite Hkey. unfold secret, getEnv. cbn [fst]. rewrite Henv. reflexivity. }
  change (Compact "HS256" ?c (hmacSign "HS256" ?k ("HS256"%string, ?c)))
    with (SignedString hmacSign k c).
  rewrite Hsec, validateToken_signed. cbn [fst].
  unfold validateClaims, NewNumericDate. cbn [ExpiresAt NotBefore Subject].
  destruct (Z.ltb_spec (clock w' (ticks w'))
              (TruncateSecond (Add (clock w (S (ticks (snd g)))) (24 * Hour))));
    [reflexivity | lia].
Qed.


(** X17: signing in and connecting compose: when the client views are
    consistent, the token of a successful verification, presented to
    /connect in a world with the store the verification left, the same
    secret and a clock before the token's expiry, is answered 200 with the
    client identifier and the environment of the verification response. *)
Theorem verify_then_connect (body : option OTPVerify) (a : AuthResponse)
    (b : option unit) (w w2 : World) (e : Time) :
  viewsConsistent (storage w) ->
  fst (handleVerify hmacSign body w) = VerifyOK a ->
  storage w2 = storage (snd (handleVerify hmacSign body w)) ->
  fst (secret w2) = fst (secret w) ->
  tokenExpiry (ar_Token a) = Some e ->
  clock w2 (ticks w2) < e ->
  fst (handleConnect hmacSign (mkAuthRequest (Some (ar_Token a)) b) w2) =
  mkResponse StatusOK (ConnectedBody (ar_ClientID a) (ar_Environment a)).
Proof.
  intros Hvc Hok Hstore Hkey Hexp Hnow.
  destruct (handleVerify_token _ _ _ Hok)
    as (e' & n & He' & _ & _ & Hval).
  rewrite Hexp in He'. injection He' as <-.
  specialize (Hval w2 Hkey Hnow).
  destruct (handleVerify_success _ _ _ Hok)
    as (email & candidate & _ & Ha & Hw).
  cbv zeta in Ha, Hw.
  set (g := getOrCreateClientWithInfrastructure email (snd (timeNow w))) in *.
  assert (Hrec : storage w2 !! idKey (ar_ClientID a) = Some (DocClient (fst g))).
  { rewrite Hstore, Hw, withStorage_storage, generateToken_storage.
    rewrite lookup_delete_ne by keys_ne. subst a. cbn [ar_ClientID].
    apply (getOrCreate_id_record email (snd (timeNow w))). exact Hvc. }
  rewrite (handleConnect_run hmacSign _ _ _ _ _ Hval Hrec). cbn [fst decodeClient].
  subst a. reflexivity.
Qed.

(** X18: the client identifier is stable across sign-ins: while the
    by-email record left by one successful verification is in place, any
    later successful verification for that email answers with the same
    client identifier and environment. *)
Theorem client_id_stable (email code1 code2 : string)
    (a1 a2 : AuthResponse) (w w2 : World) :
  let r1 := handleVerify hmacSign (Some (mkOTPVerify email code1)) w in
  fst r1 = VerifyOK a1 ->
  storage w2 !! clientKey email = storage (snd r1) !! clientKey email ->
  fst (handleVerify hmacSign (Some (mkOTPVerify email code2)) w2) = VerifyOK a2 ->
  ar_ClientID a2 = ar_ClientID a1 /\ ar_Environment a2 = ar_Environment a1.
Proof.
  intros r1 Hok1 Hsame Hok2. subst r1.
  destruct (handleVerify_success _ _ _ Hok1) as (e1 & c1 & Eb1 & Ha1 & Hw1).
  injection Eb1 as <- <-. cbv zeta in Ha1, Hw1.
  destruct (handleVerify_success _ _ _ Hok2) as (e2 & c2 & Eb2 & Ha2 & _).
  injection Eb2 as <- <-. cbv zeta in Ha2.
  destruct (getOrCreate_stored email (snd (timeNow w))) as (d & Hd & Hdec).
  assert (Hd2 : storage (snd (timeNow w2)) !! clientKey email = Some d).
  { change (storage (snd (timeNow w2))) with (storage w2).
    rewrite Hsame, Hw1, withStorage_storage, generateToken_storage.
    rewrite lookup_delete_ne by keys_ne. exact Hd. }
  rewrite (getOrCreate_existing _ _ _ Hd2) in Ha2. cbn [fst snd] in Ha2.
  rewrite Hdec in Ha2. subst a1 a2. split; reflexivity.
Qed.

End SignIn.
(** *** Routing *)

Lemma viewsConsistent_agree (s s' : gmap string Doc) :
  (forall e, s' !! clientKey e = s !! clientKey e) ->
  (forall i, s' !! idKey i = s !! idKey i) ->
  viewsConsistent s -> viewsConsistent s'.
Proof.
  intros Hc Hi [Hem Hid]. split.
  - intros email d Hl. rewrite Hc in Hl.
    destruct (Hem _ _ Hl) as (c & -> & Hx & Hy).
    exists c. rewrite Hi. auto.
  - intros id d Hl. rewrite Hi in Hl.
    destruct (Hid _ _ Hl) as (c & -> & Hx & Hy).
    exists c. rewrite Hc. auto.
Qed.

Lemma viewsConsistent_otp_insert (s : gmap string Doc) (e : string) (d : Doc) :
  viewsConsistent s -> viewsConsistent (<[otpKey e := d]> s).
Proof.
  apply viewsConsistent_agree; intros; apply lookup_insert_ne; keys_ne.
Qed.

Lemma viewsConsistent_otp_delete (s : gmap string Doc) (e : string) :
  viewsConsistent s -> viewsConsistent (delete (otpKey e) s).
Proof.
  apply viewsConsistent_agree; intros; apply lookup_delete_ne; keys_ne.
Qed.

Lemma updateClientLastSeen_views (id : string) (w : World) :
  viewsConsistent (storage w) ->
  viewsConsistent (storage (snd (updateClientLastSeen id w))).
Proof.
  intros Hvc. destruct (storage w !! idKey id) as [d |] eqn:H.
  - rewrite (updateClientLastSeen_run _ _ _ H). cbn [snd].
    rewrite withStorage_storage.
    destruct (proj2 Hvc _ _ H) as (c & -> & _ & _). cbn [decodeClient].
    apply (viewsConsistent_rewrite _ _ c); [exact Hvc | exact H | |];
      reflexivity.
  - rewrite (updateClientLastSeen_missing _ _ H). exact Hvc.
Qed.

Lemma updateClientInfrastructure_views (id : string) (m : Infrastructure)
    (w : World) :
  viewsConsistent (storage w) ->
  viewsConsistent (storage (snd (updateClientInfrastructure id m w))).
Proof.
  intros Hvc. destruct (storage w !! idKey id) as [d |] eqn:H.
  - rewrite (updateClientInfrastructure_run _ _ _ _ H). cbn [snd].
    rewrite withStorage_storage.
    destruct (proj2 Hvc _ _ H) as (c & -> & _ & _). cbn [decodeClient].
    apply (viewsConsistent_rewrite _ _ c); [exact Hvc | exact H | |];
      reflexivity.
  - rewrite (updateClientInfrastructure_missing _ _ _ H). exact Hvc.
Qed.

Lemma getOrCreate_views (email : string) (w : World) :
  viewsConsistent (storage w) ->
  storage w !! idKey (uuidSource w (uuidsDrawn w)) = None ->
  viewsConsistent (storage (snd (getOrCreateClientWithInfrastructure email w))).
Proof.
  intros Hvc Hfresh. destruct (storage w !! clientKey email) as [d |] eqn:H.
  - rewrite (getOrCreate_existing _ _ _ H). exact Hvc.
  - destruct (getOrCreate_new _ _ H) as (Hs & HID & HEmail). rewrite Hs.
    apply viewsConsistent_create; try assumption. rewrite HID. exact Hfresh.
Qed.

Lemma handleRegister_views (body : option OTPRequest) (w : World) :
  viewsConsistent (storage w) ->
  viewsConsistent (storage (snd (handleRegister body w))).
Proof.
  intros Hvc. destruct body as [[email] |]; [| exact Hvc].
  destruct (String.eqb_spec email "") as [-> | Hne].
  - unfold handleRegister. cbn [req_Email]. rewrite String.eqb_refl. exact Hvc.
  - rewrite (handleRegister_stores _ _ Hne). cbn [snd].
    rewrite withStorage_storage. apply viewsConsistent_otp_insert, Hvc.
Qed.

Lemma handleDebug_world (key : string) (w : World) :
  snd (handleDebug key w) = w.
Proof.
  unfold handleDebug. rewrite bind_run. unfold storageGet, Get. cbn [fst snd].
  destruct (storage w !! key); reflexivity.
Qed.

Lemma handleDebugList_world (w : World) : snd (handleDebugList w) = w.
Proof.
  unfold handleDebugList. rewrite bind_run. unfold storageGet at 1.
  cbn [fst snd]. rewrite bind_run. reflexivity.
Qed.

Section RoutingProperties.

Variable hmacSign : string -> string -> string * RegisteredClaims -> string.

Lemma handleVerify_views (body : option OTPVerify) (w : World) :
  viewsConsistent (storage w) ->
  storage w !! idKey (uuidSource w (uuidsDrawn w)) = None ->
  viewsConsistent (storage (snd (handleVerify hmacSign body w))).
Proof.
  intros Hvc Hfresh. destruct body as [[email candidate] |]; [| exact Hvc].
  destruct (handleVerify_cases hmacSign email candidate w)
    as [[_ E] | [(raw & _ & E) | [(d & _ & _ & _ & E) |
        [(rec & _ & _ & _ & _ & E) | (rec & a' & Hrec & Hcode & Hexp & _ & _)]]]].
  1,2,3: rewrite E; exact Hvc.
  - rewrite E. apply viewsConsistent_otp_delete, Hvc.
  - subst candidate. rewrite (handleVerify_ok hmacSign _ _ _ Hrec Hexp).
    cbn [snd]. rewrite withStorage_storage, generateToken_storage.
    apply viewsConsistent_otp_delete.
    apply getOrCreate_views; [exact Hvc | exact Hfresh].
Qed.

Lemma handleConnect_views (r : AuthRequest unit) (w : World) :
  viewsConsistent (storage w) ->
  viewsConsistent (storage (snd (handleConnect hmacSign r w))).
Proof.
  intros Hvc. unfold handleConnect.
  destruct (Authorization r) as [tok |]; [| exact Hvc].
  rewrite bind_run.
  pose proof (validateToken_storage hmacSign tok w) as Hs.
  destruct (fst (validateToken hmacSign tok w)) as [id |];
    [| cbn [ret snd]; rewrite Hs; exact Hvc].
  rewrite bind_run, getClientInfrastructure_run. cbn [fst snd].
  destruct (storage (snd (validateToken hmacSign tok w)) !! idKey id);
    cbn [option_map]; [| cbn [ret snd]; rewrite Hs; exact Hvc].
  rewrite bind_run. cbn [ret snd].
  apply updateClientLastSeen_views. rewrite Hs. exact Hvc.
Qed.

Lemma handleInfrastructure_views (r : AuthRequest Infrastructure) (w : World) :
  viewsConsistent (storage w) ->
  viewsConsistent (storage (snd (handleInfrastructure hmacSign r w))).
Proof.
  intros Hvc. unfold handleInfrastructure.
  destruct (Authorization r) as [tok |]; [| exact Hvc].
  rewrite bind_run.
  pose proof (validateToken_storage hmacSign tok w) as Hs.
  destruct (fst (validateToken hmacSign tok w)) as [id |];
    [| cbn [ret snd]; rewrite Hs; exact Hvc].
  destruct (requestBody r) as [m |]; [| cbn [ret snd]; rewrite Hs; exact Hvc].
  rewrite bind_run. cbn [ret snd].
  apply updateClientInfrastructure_views. rewrite Hs. exact Hvc.
Qed.

(** X19: requests that match no route have no effect: a path outside the
    API prefixes is left to the static file server, an OPTIONS request on
    an API path is answered at once (200, no body), and a request on an API
    path with a method other than GET, POST and OPTIONS gets 404 Not found;
    in all three cases the world is untouched, and the two API answers
    carry the CORS headers. *)
Theorem unrouted_requests_have_no_effect (r : HTTPRequest) (w : World) :
  (isAPIPath (URLPath r) = false ->
   handleRequest hmacSign r w = (([], StaticFile (URLPath r)), w)) /\
  (isAPIPath (URLPath r) = true -> Method r = "OPTIONS"%string ->
   handleRequest hmacSign r w = ((apiHeaders, Preflight), w)) /\
  (isAPIPath (URLPath r) = true ->
   Method r <> "OPTIONS"%string -> Method r <> "GET"%string ->
   Method r <> "POST"%string ->
   handleRequest hmacSign r w =
   ((apiHeaders, Replied (httpError "Not found" StatusNotFound)), w)).
Proof.
  unfold handleRequest. split; [| split].
  - intros ->. reflexivity.
  - intros -> ->. reflexivity.
  - intros -> Ho Hg Hp.
    apply String.eqb_neq in Ho, Hg, Hp. rewrite Ho.
    rewrite bind_run. unfold dispatch. rewrite Hg, Hp. reflexivity.
Qed.

(** X20: GET requests are read-only: whatever the path, the headers and
    the token, handling a GET request leaves the store as it was. *)
Theorem get_requests_are_read_only (r : HTTPRequest) (w : World) :
  Method r = "GET"%string ->
  storage (snd (handleRequest hmacSign r w)) = storage w.
Proof.
  intros Hm. unfold handleRequest.
  destruct (isAPIPath (URLPath r)); [| reflexivity].
  rewrite Hm. change (String.eqb "GET" "OPTIONS") with false. cbv iota.
  rewrite bind_run. cbn [ret snd]. unfold dispatch. rewrite Hm.
  change (String.eqb "GET" "GET") with true.
  change (String.eqb "GET" "POST") with false. cbn [andb].
  repeat match goal with
         | |- context [if ?b then _ else _] => destruct b
         end;
    rewrite ?bind_run; cbn [ret snd];
    rewrite ?handleDebug_world, ?handleDebugList_world,
      ?handleConfig_storage, ?handleGetInfrastructure_storage; reflexivity.
Qed.

(** X21: every request keeps the two client views consistent: if they are
    consistent before handleRequest runs and the next client identifier to
    be drawn is not in use, they are consistent afterwards. *)
Theorem every_request_keeps_views_consistent (r : HTTPRequest) (w : World) :
  viewsConsistent (storage w) ->
  storage w !! idKey (uuidSource w (uuidsDrawn w)) = None ->
  viewsConsistent (storage (snd (handleRequest hmacSign r w))).
Proof.
  intros Hvc Hfresh. unfold handleRequest.
  destruct (isAPIPath (URLPath r)); [| exact Hvc].
  destruct (String.eqb (Method r) "OPTIONS"); [exact Hvc |].
  rewrite bind_run. cbn [ret snd]. unfold dispatch.
  repeat match goal with
         | |- context [if ?b then _ else _] => destruct b
         end;
    rewrite ?bind_run; cbn [ret snd];
    rewrite ?handleDebug_world, ?handleDebugList_world,
      ?handleConfig_storage, ?handleGetInfrastructure_storage;
    auto using handleRegister_views, handleVerify_views, handleConnect_views,
      handleInfrastructure_views.
Qed.

End RoutingProperties.

(** *** Start-up *)

Lemma connectLoop_spec (connect : nat -> bool) (remaining i : nat) :
  match connectLoop connect i remaining with
  | (Some k, slept) =>
      (i <= k < i + remaining)%nat /\ connect k = true /\
      (forall j, (i <= j < k)%nat -> connect j = false) /\
      slept = 5 * Second * Z.of_nat (k - i)
  | (None, slept) =>
      (forall j, (i <= j < i + remaining)%nat -> connect j = false) /\
      slept = 5 * Second * Z.of_nat remaining
  end.
Proof.
  revert i. induction remaining as [| n IH]; intros i.
  - cbn [connectLoop]. split; [intros j Hj; lia | lia].
  - cbn [connectLoop]. destruct (connect i) eqn:Hi.
    + split; [lia |]. split; [exact Hi |]. split; [intros j Hj; lia |].
      replace (i - i)%nat with 0%nat by lia. lia.
    + specialize (IH (S i)).
      destruct (connectLoop connect (S i) n) as [[k |] slept].
      * destruct IH as (Hk & Hck & Hbefore & Hs).
        split; [lia |]. split; [exact Hck |]. split.
        -- intros j Hj. destruct (Nat.eq_dec j i) as [-> | Hne];
             [exact Hi | apply Hbefore; lia].
        -- rewrite Hs. replace (k - i)%nat with (S (k - S i)) by lia. lia.
      * destruct IH as (Hall & Hs). split.
        -- intros j Hj. destruct (Nat.eq_dec j i) as [-> | Hne];
             [exact Hi | apply Hall; lia].
        -- rewrite Hs. lia.
Qed.

(** X22: start-up tries the durable store at most 20 times and uses the
    first attempt that succeeds, having slept 5 seconds after each failed
    one; it falls back to the in-memory store exactly when all 20 attempts
    fail, after 100 seconds of sleep. *)
Theorem startup_retry_is_bounded (connect : nat -> bool) :
  (selectStorage connect = RedisBackend <->
   exists i, (i < 20)%nat /\ connect i = true) /\
  (forall k, fst (connectLoop connect 0 20) = Some k ->
     (k < 20)%nat /\ connect k = true /\
     (forall j, (j < k)%nat -> connect j = false) /\
     snd (connectLoop connect 0 20) = 5 * Second * Z.of_nat k) /\
  (selectStorage connect = InMemoryBackend ->
   (forall j, (j < 20)%nat -> connect j = false) /\
   snd (connectLoop connect 0 20) = 100 * Second).
Proof.
  pose proof (connectLoop_spec connect 20 0) as H. unfold selectStorage.
  destruct (connectLoop connect 0 20) as [[k |] slept]; cbn [fst snd].
  - destruct H as (Hk & Hck & Hbefore & Hs). split; [| split].
    + split; [intros _; exists k; split; [lia | exact Hck] | reflexivity].
    + intros k' E. injection E as <-.
      split; [lia |]. split; [exact Hck |]. split.
      * intros j Hj. apply Hbefore. lia.
      * rewrite Hs. replace (k - 0)%nat with k by lia. reflexivity.
    + discriminate.
  - destruct H as (Hall & Hs). split; [| split].
    + split; [discriminate |]. intros (i & Hi & Hci).
      rewrite Hall in Hci by lia. discriminate.
    + discriminate.
    + intros _. split; [intros j Hj; apply Hall; lia |]. rewrite Hs.
      unfold Second. lia.
Qed.
(** *** The debug route *)

Lemma Split_noSlash (s : string) : noSlash s = true -> Split s "/"%char = [s].
Proof.
  induction s as [| c s IH]; [reflexivity |].
  cbn [noSlash Split]. intros H. apply andb_prop in H. destruct H as [Hc Hs].
  apply negb_true_iff in Hc. rewrite Hc, (IH Hs). reflexivity.
Qed.

Lemma substring_all (s : string) : substring 0 (String.length s) s = s.
Proof.
  induction s as [| c s IH]; [reflexivity |].
  cbn [String.length substring]. rewrite IH. reflexivity.
Qed.

Lemma TrimPrefix_char (c : ascii) (s : string) :
  TrimPrefix (String c s) (String c EmptyString) = s.
Proof.
  unfold TrimPrefix, HasPrefix. cbn [String.prefix].
  destruct (ascii_dec c c) as [_ | N]; [| congruence].
  cbn [String.length Nat.sub substring]. rewrite Nat.sub_0_r.
  destruct s; apply substring_all.
Qed.

Section DebugRoute.

Variable hmacSign : string -> string -> string * RegisteredClaims -> string.

(** X23: the debug route reads any key of the store: a GET request for
    /debug/<key>, the key free of slashes, is answered with the value
    stored under that key, or with 404 when there is none, and changes
    nothing.  In particular the pending code of an email can be read under
    otp:<email>. *)
Theorem debug_route_reads_any_key (r : HTTPRequest) (key : string) (w : World) :
  Method r = "GET"%string ->
  URLPath r = ("/debug/" +:+ key)%string ->
  noSlash key = true ->
  handleRequest hmacSign r w =
  ((apiHeaders,
    match storage w !! key with
    | Some d => DebugValue key d
    | None =>
        Replied (httpError ("Key not found: key not found: " +:+ key)%string
                           StatusNotFound)
    end), w).
Proof.
  intros Hm Hp Hk. unfold handleRequest. rewrite Hp, Hm.
  assert (Hapi : isAPIPath ("/debug/" +:+ key) = true).
  { unfold isAPIPath, HasPrefix. cbn. reflexivity. }
  rewrite Hapi. change (String.eqb "GET" "OPTIONS") with false. cbv iota.
  assert (Htrim : TrimPrefix ("/debug/" +:+ key) "/" = ("debug/" +:+ key)%string).
  { change ("/debug/" +:+ key)%string with (String "/" ("debug/" +:+ key)).
    apply TrimPrefix_char. }
  rewrite Htrim.
  assert (Hsplit : Split ("debug/" +:+ key) "/"%char = ["debug"%string; key]).
  { change ("debug/" +:+ key)%string
      with (String "d" (String "e" (String "b" (String "u" (String "g"
              (String "/" key)))))).
    cbn [Split]. rewrite (Split_noSlash _ Hk). reflexivity. }
  rewrite Hsplit, bind_run. unfold dispatch. rewrite Hm.
  cbn [List.hd List.nth List.length].
  change (String.eqb "GET" "GET") with true.
  change (String.eqb "debug" "health") with false.
  change (String.eqb "debug" "debug") with true.
  change (1 <? 2)%nat with true. cbn [andb].
  unfold handleDebug. rewrite bind_run. unfold storageGet, Get. cbn [fst snd].
  destruct (storage w !! key); reflexivity.
Qed.

End DebugRoute.

(** *** Closed instances *)

Lemma validateToken_sound_witness :
  let w := exampleWorld ∅ (fun _ => 50 * Second) in
  storage (snd (validateToken exampleHmac
                  (fst (generateToken exampleHmac "c1" w)) w)) = storage w.
Proof.
  intros w.
  refine (proj2 (validateToken_sound exampleHmac _ "c1" w _)).
  vm_compute. reflexivity.
Defined.

Lemma no_token_no_effect_witness :
  let w := exampleWorld exampleStore (fun _ => 50 * Second) in
  status (fst (handleConnect exampleHmac
                 (mkAuthRequest (Some (Malformed "invalid-token")) None) w)) =
  StatusUnauthorized.
Proof.
  intros w.
  refine (proj1 (proj1 (no_token_no_effect exampleHmac
                          (Some (Malformed "invalid-token")) w _) None)).
  right. eexists. split; [reflexivity |]. vm_compute. reflexivity.
Defined.

Lemma unknown_client_answers_witness :
  let w0 := exampleWorld exampleStore (fun _ => 50 * Second) in
  let tok := fst (generateToken exampleHmac "ghost" w0) in
  status (fst (handleConfig exampleHmac (mkAuthRequest (Some tok) None) w0)) =
  StatusNotFound.
Proof.
  intros w0 tok.
  refine (proj1 (proj1 (proj2
            (unknown_client_answers exampleHmac tok "ghost" w0 _ _)) None)).
  - vm_compute. reflexivity.
  - vm_compute. reflexivity.
Defined.

Lemma infrastructure_bad_body_witness :
  let w0 := exampleWorld exampleStore (fun _ => 50 * Second) in
  let tok := fst (generateToken exampleHmac "c1" w0) in
  fst (handleInfrastructure exampleHmac (mkAuthRequest (Some tok) None) w0) =
  httpError "Invalid request" StatusBadRequest.
Proof.
  intros w0 tok.
  refine (proj1 (infrastructure_bad_body exampleHmac tok "c1" w0 _)).
  vm_compute. reflexivity.
Defined.

Lemma exampleOTPStore_views : viewsConsistent exampleOTPStore.
Proof. apply viewsConsistent_otp_insert, viewsConsistent_empty. Qed.


Lemma verify_then_connect_witness :
  let w := exampleWorld exampleOTPStore (fun _ => 10 * Second) in
  let r := handleVerify exampleHmac (Some (mkOTPVerify "a@x.com" "123456")) w in
  exists a,
    fst r = VerifyOK a /\
    fst (handleConnect exampleHmac (mkAuthRequest (Some (ar_Token a)) None)
           (snd r)) =
    mkResponse StatusOK (ConnectedBody (ar_ClientID a) (ar_Environment a)).
Proof.
  intros w r.
  destruct (fst r) as [| | | | | a] eqn:E;
    try (vm_compute in E; discriminate E).
  exists a. split; [reflexivity |].
  apply (verify_then_connect exampleHmac _ a None w (snd r)
           (86410 * Second) exampleOTPStore_views E eq_refl eq_refl).
  - vm_compute in E. injection E as <-. vm_compute. reflexivity.
  - vm_compute. reflexivity.
Defined.

Lemma client_id_stable_witness :
  let w := exampleWorld exampleOTPStore (fun _ => 10 * Second) in
  let r1 := handleVerify exampleHmac (Some (mkOTPVerify "a@x.com" "123456")) w in
  let w2 := withStorage (<[otpKey "a@x.com" := DocOTP exampleOTP]>
                           (storage (snd r1))) (snd r1) in
  let r2 := handleVerify exampleHmac (Some (mkOTPVerify "a@x.com" "123456")) w2 in
  exists a1 a2,
    fst r1 = VerifyOK a1 /\ fst r2 = VerifyOK a2 /\
    ar_ClientID a2 = ar_ClientID a1.
Proof.
  intros w r1 w2 r2.
  destruct (fst r1) as [| | | | | a1] eqn:E1;
    try (vm_compute in E1; discriminate E1).
  destruct (fst r2) as [| | | | | a2] eqn:E2;
    try (vm_compute in E2; discriminate E2).
  exists a1, a2. split; [reflexivity |]. split; [reflexivity |].
  refine (proj1 (client_id_stable exampleHmac "a@x.com" "123456" "123456"
                   a1 a2 w w2 E1 _ E2)).
  vm_compute. reflexivity.
Defined.

Lemma unrouted_requests_have_no_effect_witness :
  let w := exampleWorld exampleStore (fun _ => 50 * Second) in
  handleRequest exampleHmac (exampleRequest "DELETE" "/register") w =
  ((apiHeaders, Replied (httpError "Not found" StatusNotFound)), w).
Proof.
  intros w.
  apply (proj2 (proj2 (unrouted_requests_have_no_effect exampleHmac
                         (exampleRequest "DELETE" "/register") w))).
  - vm_compute. reflexivity.
  - vm_compute. discriminate.
  - vm_compute. discriminate.
  - vm_compute. discriminate.
Defined.

Lemma get_requests_are_read_only_witness :
  let w := exampleWorld exampleStore (fun _ => 50 * Second) in
  storage (snd (handleRequest exampleHmac (exampleRequest "GET" "/config") w)) =
  storage w.
Proof.
  intros w.
  apply (get_requests_are_read_only exampleHmac). reflexivity.
Defined.

Lemma every_request_keeps_views_consistent_witness :
  let w := exampleWorld exampleOTPStore (fun _ => 10 * Second) in
  viewsConsistent
    (storage (snd (handleRequest exampleHmac
       (mkHTTPRequest "POST" "/verify" None None
          (Some (mkOTPVerify "a@x.com" "123456")) None) w))).
Proof.
  intros w.
  apply (every_request_keeps_views_consistent exampleHmac).
  - exact exampleOTPStore_views.
  - vm_compute. reflexivity.
Defined.

Lemma startup_retry_is_bounded_witness :
  selectStorage (fun i => Nat.eqb i 3) = RedisBackend.
Proof.
  apply (proj1 (startup_retry_is_bounded (fun i => Nat.eqb i 3))).
  exists 3%nat. split; [lia | reflexivity].
Defined.

Lemma debug_route_reads_any_key_witness :
  let w := exampleWorld exampleOTPStore (fun _ => 10 * Second) in
  handleRequest exampleHmac (exampleRequest "GET" "/debug/otp:a@x.com") w =
  ((apiHeaders, DebugValue "otp:a@x.com" (DocOTP exampleOTP)), w).
Proof.
  intros w.
  pose proof (debug_route_reads_any_key exampleHmac
                (exampleRequest "GET" "/debug/otp:a@x.com") "otp:a@x.com" w
                eq_refl eq_refl eq_refl) as H.
  rewrite H. vm_compute. reflexivity.
Defined.
Section RouteTable.

Variable hmacSign : string -> string -> string * RegisteredClaims -> string.

Ltac route Hm Hp :=
  unfold handleRequest, dispatch; rewrite Hm, Hp;
  repeat match goal with
         | |- context [handleRegister ?b] => generalize (handleRegister b); intro
         | |- context [handleVerify hmacSign ?b] =>
             generalize (handleVerify hmacSign b); intro
         | |- context [handleConnect hmacSign ?b] =>
             generalize (handleConnect hmacSign b); intro
         | |- context [handleConfig hmacSign ?b] =>
             generalize (handleConfig hmacSign b); intro
         | |- context [handleInfrastructure hmacSign ?b] =>
             generalize (handleInfrastructure hmacSign b); intro
         | |- context [handleGetInfrastructure hmacSign ?b] =>
             generalize (handleGetInfrastructure hmacSign b); intro
         end;
  rewrite ?bind_run; vm_compute;
  repeat match goal with
         | |- context [let (_, _) := ?m ?w in _] => destruct (m w)
         end;
  reflexivity.

(** X24: the route table: POST /register, POST /verify, POST /connect,
    GET /config, POST /infrastructure and GET /infrastructure run their
    handler on the request and answer with its response under the CORS
    headers, and GET /health answers healthy without touching the world. *)
Theorem route_table (r : HTTPRequest) (w : World) :
  (Method r = "POST"%string -> URLPath r = "/register"%string ->
   handleRequest hmacSign r w =
   ((apiHeaders, Replied (fst (handleRegister (bodyOTPRequest r) w))),
    snd (handleRegister (bodyOTPRequest r) w))) /\
  (Method r = "POST"%string -> URLPath r = "/verify"%string ->
   handleRequest hmacSign r w =
   ((apiHeaders,
     Replied (verifyResponse (fst (handleVerify hmacSign (bodyOTPVerify r) w)))),
    snd (handleVerify hmacSign (bodyOTPVerify r) w))) /\
  (Method r = "POST"%string -> URLPath r = "/connect"%string ->
   handleRequest hmacSign r w =
   ((apiHeaders,
     Replied (fst (handleConnect hmacSign (authRequest r (Some tt)) w))),
    snd (handleConnect hmacSign (authRequest r (Some tt)) w))) /\
  (Method r = "GET"%string -> URLPath r = "/config"%string ->
   handleRequest hmacSign r w =
   ((apiHeaders,
     Replied (fst (handleConfig hmacSign (authRequest r (Some tt)) w))),
    snd (handleConfig hmacSign (authRequest r (Some tt)) w))) /\
  (Method r = "POST"%string -> URLPath r = "/infrastructure"%string ->
   handleRequest hmacSign r w =
   ((apiHeaders,
     Replied (fst (handleInfrastructure hmacSign
                     (authRequest r (bodyInfrastructure r)) w))),
    snd (handleInfrastructure hmacSign
           (authRequest r (bodyInfrastructure r)) w))) /\
  (Method r = "GET"%string -> URLPath r = "/infrastructure"%string ->
   handleRequest hmacSign r w =
   ((apiHeaders,
     Replied (fst (handleGetInfrastructure hmacSign
                     (authRequest r (Some tt)) w))),
    snd (handleGetInfrastructure hmacSign (authRequest r (Some tt)) w))) /\
  (Method r = "GET"%string -> URLPath r = "/health"%string ->
   handleRequest hmacSign r w = ((apiHeaders, Healthy), w)).
Proof.
  repeat split; intros Hm Hp; route Hm Hp.
Qed.

End RouteTable.

Lemma route_table_witness :
  let w := exampleWorld exampleStore (fun _ => 50 * Second) in
  handleRequest exampleHmac (exampleRequest "GET" "/health") w =
  ((apiHeaders, Healthy), w).
Proof.
  intros w.
  apply (proj2 (proj2 (proj2 (proj2 (proj2 (proj2
           (route_table exampleHmac (exampleRequest "GET" "/health") w)))))));
    reflexivity.
Defined.
